(** * Bulk-load payload encoder (src/bulk-load.js)

    A shallow embedding of the [BulkLoad] class: the column registry, the
    row buffer, the COLMETADATA and DONE token encoders, the payload
    assembler and the command-text generators, followed by the properties
    the specification states about them. *)

From Stdlib Require Import ZArith Lia Bool Ascii String List.
From stdpp Require Import base gmap strings list.
Import ListNotations.

Set Warnings "-register-all".
Local Open Scope string_scope.
Local Open Scope list_scope.
Local Open Scope Z_scope.

(** ** JavaScript values *)

(** The values a caller can hand to [addRow] or put in the options record.
    Numbers are kept to the integers plus [NaN]; objects are property lists
    in insertion order. *)
Inductive JsValue : Type :=
| JsUndefined
| JsNull
| JsBool (b : bool)
| JsNumber (z : Z)
| JsNaN
| JsString (s : string)
| JsFunction (label : string)
| JsArray (elems : list JsValue)
| JsObject (props : list (string * JsValue)).

(** [typeof v] *)
Definition typeof (v : JsValue) : string :=
  match v with
  | JsUndefined => "undefined"
  | JsNull => "object"
  | JsBool _ => "boolean"
  | JsNumber _ | JsNaN => "number"
  | JsString _ => "string"
  | JsFunction _ => "function"
  | JsArray _ | JsObject _ => "object"
  end.

(** [ToBoolean v]: what [!v] and [if (v)] test. *)
Definition truthy (v : JsValue) : bool :=
  match v with
  | JsUndefined | JsNull | JsNaN => false
  | JsBool b => b
  | JsNumber z => negb (z =? 0)
  | JsString s => negb (String.eqb s "")
  | JsFunction _ | JsArray _ | JsObject _ => true
  end.

(** [v instanceof Array] *)
Definition instanceofArray (v : JsValue) : bool :=
  match v with
  | JsArray _ => true
  | _ => false
  end.

(** The own property of a plain object under a key, [None] when it has
    none. *)
Fixpoint ownProperty (k : string) (props : list (string * JsValue))
  : option JsValue :=
  match props with
  | [] => None
  | (k', v) :: rest => if String.eqb k k' then Some v else ownProperty k rest
  end.

(** The functions of [Object.prototype], which every plain object
    inherits. *)
Definition objectPrototypeFunctions : list (string * JsValue) :=
  [("constructor", JsFunction "Object");
   ("__defineGetter__", JsFunction "__defineGetter__");
   ("__defineSetter__", JsFunction "__defineSetter__");
   ("hasOwnProperty", JsFunction "hasOwnProperty");
   ("__lookupGetter__", JsFunction "__lookupGetter__");
   ("__lookupSetter__", JsFunction "__lookupSetter__");
   ("isPrototypeOf", JsFunction "isPrototypeOf");
   ("propertyIsEnumerable", JsFunction "propertyIsEnumerable");
   ("toString", JsFunction "toString");
   ("valueOf", JsFunction "valueOf");
   ("toLocaleString", JsFunction "toLocaleString")].

(** What a plain object without an own property under the key reads from
    [Object.prototype]: one of its functions, the prototype itself for
    [__proto__], and [undefined] otherwise. *)
Definition inherited (k : string) : JsValue :=
  if String.eqb k "__proto__" then JsObject objectPrototypeFunctions
  else match ownProperty k objectPrototypeFunctions with
       | Some v => v
       | None => JsUndefined
       end.

(** [row[i]] for an array index. *)
Definition getIndex (row : JsValue) (i : nat) : JsValue :=
  match row with
  | JsArray elems => nth i elems JsUndefined
  | _ => JsUndefined
  end.

(** [row[key]] for a plain object: the own property, else what the
    prototype chain gives. *)
Definition getProp (row : JsValue) (key : string) : JsValue :=
  match row with
  | JsObject props =>
      match ownProperty key props with
      | Some v => v
      | None => inherited key
      end
  | _ => JsUndefined
  end.

(** ** Errors *)

Inductive Exception : Type :=
| TypeError (message : string)
| Error (message : string)
| EncodingError (message : string).

(** The outcome of a call: a returned value or a thrown exception. *)
Inductive Completion (A : Type) : Type :=
| Return (a : A)
| Throw (e : Exception).
Arguments Return {A} a.
Arguments Throw {A} e.

Definition isThrow {A} (c : Completion A) : bool :=
  match c with
  | Throw _ => true
  | Return _ => false
  end.

(** ** Bytes and the tracking buffer *)

(** A byte is a [Z] in [0, 256). *)
Abbreviation byte := Z (only parsing).

Definition uint8 (v : Z) : list byte := [v mod 256].
Definition uint16LE (v : Z) : list byte := [v mod 256; (v / 256) mod 256].
Definition uint32LE (v : Z) : list byte :=
  [v mod 256; (v / 256) mod 256; (v / 65536) mod 256; (v / 16777216) mod 256].

(** One UTF-16 code unit per character, low byte first. *)
Fixpoint ucs2 (s : string) : list byte :=
  match s with
  | EmptyString => []
  | String c rest => Z.of_nat (nat_of_ascii c) :: 0 :: ucs2 rest
  end.

(** Modelled from the spec: the growable byte buffer
    ([WritableTrackingBuffer], required from
    ./tracking-buffer/writable-tracking-buffer, which is not under src/).
    It is an append-only arena: bytes go into the current chunk of fixed
    [capacity]; when a write does not fit, the filled part of the chunk is moved
    to [compositeBuffer] and a new chunk is allocated; [data] finalises the
    buffer to the bytes written so far. *)
Record WritableTrackingBuffer : Type := mkBuffer {
  initialSize : Z;
  doubleSizeGrowth : bool;
  capacity : Z;                    (* room in the current chunk *)
  buffer : list byte;              (* bytes written to the current chunk *)
  compositeBuffer : list byte      (* bytes of the chunks already closed *)
}.

Definition newWritableTrackingBuffer (initial : Z) (double : bool)
  : WritableTrackingBuffer :=
  {| initialSize := initial; doubleSizeGrowth := double;
     capacity := initial; buffer := []; compositeBuffer := [] |}.

Definition position (b : WritableTrackingBuffer) : Z :=
  Z.of_nat (List.length (buffer b)).

Definition newBuffer (sz : Z) (b : WritableTrackingBuffer)
  : WritableTrackingBuffer :=
  {| initialSize := initialSize b; doubleSizeGrowth := doubleSizeGrowth b;
     capacity := sz; buffer := [];
     compositeBuffer := compositeBuffer b ++ buffer b |}.

(** Doubling until the required length fits; [fuel] bounds the loop. *)
Fixpoint growTo (fuel : nat) (sz required : Z) : Z :=
  match fuel with
  | O => Z.max sz required
  | S fuel' => if sz <? required then growTo fuel' (2 * sz) required else sz
  end.

Definition makeRoomFor (required : Z) (b : WritableTrackingBuffer)
  : WritableTrackingBuffer :=
  if capacity b - position b <? required then
    if doubleSizeGrowth b then
      newBuffer (growTo (Z.to_nat required) (Z.max 128 (capacity b * 2)) required) b
    else newBuffer required b
  else b.

(** Append [bytes] to the buffer. *)
Definition write (bytes : list byte) (b : WritableTrackingBuffer)
  : WritableTrackingBuffer :=
  let b' := makeRoomFor (Z.of_nat (List.length bytes)) b in
  {| initialSize := initialSize b'; doubleSizeGrowth := doubleSizeGrowth b';
     capacity := capacity b'; buffer := buffer b' ++ bytes;
     compositeBuffer := compositeBuffer b' |}.

Definition writeUInt8 (v : Z) := write (uint8 v).
Definition writeUInt16LE (v : Z) := write (uint16LE v).
Definition writeUInt32LE (v : Z) := write (uint32LE v).
Definition copyFrom (bytes : list byte) := write bytes.

(** A one-byte character count, then the characters. *)
Definition writeBVarchar (s : string) (b : WritableTrackingBuffer)
  : WritableTrackingBuffer :=
  write (ucs2 s) (writeUInt8 (Z.of_nat (String.length s)) b).

(** The [data] getter closes the current chunk, so it returns the bytes and
    the buffer as it is afterwards. *)
Definition data (b : WritableTrackingBuffer)
  : list byte * WritableTrackingBuffer :=
  let b' := newBuffer 0 b in (compositeBuffer b', b').

(** The bytes written so far. *)
Definition contents (b : WritableTrackingBuffer) : list byte :=
  compositeBuffer b ++ buffer b.

(** ** Wire constants *)

Module FLAGS.
Definition nullable : Z := Z.shiftl 1 0.
Definition caseSen : Z := Z.shiftl 1 1.
Definition updateableReadWrite : Z := Z.shiftl 1 2.
Definition updateableUnknown : Z := Z.shiftl 1 3.
Definition identity : Z := Z.shiftl 1 4.
Definition computed : Z := Z.shiftl 1 5.
Definition fixedLenCLRType : Z := Z.shiftl 1 8.
Definition sparseColumnSet : Z := Z.shiftl 1 10.
Definition hidden : Z := Z.shiftl 1 13.
Definition key : Z := Z.shiftl 1 14.
Definition nullableUnknown : Z := Z.shiftl 1 15.
End FLAGS.

Module DONE_STATUS.
Definition FINAL : Z := 0x00.
Definition MORE : Z := 0x1.
Definition ERROR : Z := 0x2.
Definition INXACT : Z := 0x4.
Definition COUNT : Z := 0x10.
Definition ATTN : Z := 0x20.
Definition SRVERROR : Z := 0x100.
End DONE_STATUS.

(** The token-type markers of ./token/token ([TOKEN_TYPE]); the table is not
    under src/, so the encoders take it as a parameter. *)
Record TYPE : Type := {
  ROW : Z;
  DONE : Z;
  COLMETADATA : Z
}.

(** ** Options, type descriptors and columns *)

Record InternalOptions : Type := {
  checkConstraints : bool;
  fireTriggers : bool;
  keepNulls : bool;
  lockTable : bool
}.

(** The options record as the caller passes it: any value per field,
    [JsUndefined] for a field that is absent. *)
Record Options : Type := {
  o_checkConstraints : JsValue;
  o_fireTriggers : JsValue;
  o_keepNulls : JsValue;
  o_lockTable : JsValue
}.

(** The part of the connection options this class reads. *)
Record ConnectionOptions : Type := {
  tdsVersion : string
}.

(** [a < b] and [a >= b] on strings: code units compared left to right. *)
Definition js_lt (a b : string) : bool := String.ltb a b.
Definition js_ge (a b : string) : bool := negb (js_lt a b).

(** The third argument of [addColumn]; [None] is an omitted field. *)
Record ColumnOptions : Type := {
  co_output : option bool;
  co_length : option Z;
  co_precision : option Z;
  co_scale : option Z;
  co_objName : option string;
  co_nullable : option bool
}.

(** The fields of a column object other than its type descriptor: what the
    descriptor's capabilities read from the column they are handed.
    [None] is [undefined]. *)
Record ColumnFields : Type := {
  name : string;
  value : JsValue;
  output : bool;
  length : option Z;
  precision : option Z;
  scale : option Z;
  objName : string;
  nullable : option bool
}.

(** The object [addRow] hands to [writeParameterData]. *)
Record ParameterData : Type := {
  p_length : option Z;
  p_scale : option Z;
  p_precision : option Z;
  p_value : JsValue
}.

(** A type descriptor (external to this class). The resolve and encode
    capabilities may throw; [writeParameterData] and [writeTypeInfo]
    append the bytes they return to the buffer they are given and then
    return or throw. [declaration] is taken to return its text. *)
Record DataType : Type := {
  id : Z;
  resolveLength : option (ColumnFields -> Completion (option Z));
  hasPrecision : bool;
  resolvePrecision : option (ColumnFields -> Completion (option Z));
  hasScale : bool;
  resolveScale : option (ColumnFields -> Completion (option Z));
  writeTypeInfo :
    ColumnFields -> ConnectionOptions -> list byte * option Exception;
  writeParameterData :
    ParameterData -> ConnectionOptions -> list byte * option Exception;
  declaration : ColumnFields -> string
}.

Record Column : Type := {
  type : DataType;
  fields : ColumnFields
}.

Definition set_length (l : option Z) (c : ColumnFields) : ColumnFields :=
  {| name := name c; value := value c; output := output c; length := l;
     precision := precision c; scale := scale c; objName := objName c;
     nullable := nullable c |}.

Definition set_precision (p : option Z) (c : ColumnFields) : ColumnFields :=
  {| name := name c; value := value c; output := output c;
     length := length c; precision := p; scale := scale c;
     objName := objName c; nullable := nullable c |}.

Definition set_scale (s : option Z) (c : ColumnFields) : ColumnFields :=
  {| name := name c; value := value c; output := output c;
     length := length c; precision := precision c; scale := s;
     objName := objName c; nullable := nullable c |}.

(** ** The bulk-load instance *)

(** [columnsByName] is a plain object used as a map: its own properties,
    and the column that an assignment to [__proto__] installed as its
    prototype ([None]: the prototype is [Object.prototype], as created). *)
Record NameIndex : Type := {
  own : gmap string Column;
  prototype : option Column
}.

(** [{}] *)
Definition emptyIndex : NameIndex := {| own := ∅; prototype := None |}.

(** [index[nm] = c]. Without an own property of that name, [__proto__] is
    the setter of [Object.prototype] and replaces the prototype; every
    other name becomes, or updates, an own property. *)
Definition assign (nm : string) (c : Column) (index : NameIndex) : NameIndex :=
  if String.eqb nm "__proto__"
     && match own index !! nm with Some _ => false | None => true end
  then {| own := own index; prototype := Some c |}
  else {| own := <[nm := c]> (own index); prototype := prototype index |}.

(** What reading [index[nm]] gives. *)
Inductive Read : Type :=
| ReadColumn (c : Column)                (* a registered column *)
| ReadField (c : Column) (field : string) (* a field of the prototype column *)
| ReadInherited (v : JsValue)            (* from [Object.prototype] *)
| ReadUndefined.

(** The own properties of a column object. *)
Definition columnFieldNames : list string :=
  ["type"; "name"; "value"; "output"; "length"; "precision"; "scale";
   "objName"; "nullable"].

Definition readObjectPrototype (nm : string) : Read :=
  match ownProperty nm objectPrototypeFunctions with
  | Some v => ReadInherited v
  | None => ReadUndefined
  end.

(** [index[nm]]: the own property, else the prototype chain, which is
    [Object.prototype], behind the installed column when there is one. *)
Definition read (nm : string) (index : NameIndex) : Read :=
  match own index !! nm with
  | Some c => ReadColumn c
  | None =>
      match prototype index with
      | Some c =>
          if String.eqb nm "__proto__" then ReadColumn c
          else if existsb (String.eqb nm) columnFieldNames then ReadField c nm
          else readObjectPrototype nm
      | None =>
          if String.eqb nm "__proto__"
          then ReadInherited (JsObject objectPrototypeFunctions)
          else readObjectPrototype nm
      end
  end.

Record BulkLoad : Type := {
  error : option Exception;
  canceled : bool;
  timeout : option Z;
  table : string;
  options : ConnectionOptions;
  columns : list Column;
  columnsByName : NameIndex;
  firstRowWritten : bool;
  rowsData : WritableTrackingBuffer;
  bulkOptions : InternalOptions
}.

(** A method: it returns or throws, and leaves the instance as it is at
    that point. *)
Definition Method (A : Type) : Type := BulkLoad -> Completion A * BulkLoad.

Definition set_firstRowWritten (v : bool) (this : BulkLoad) : BulkLoad :=
  {| error := error this; canceled := canceled this; timeout := timeout this;
     table := table this; options := options this; columns := columns this;
     columnsByName := columnsByName this; firstRowWritten := v;
     rowsData := rowsData this; bulkOptions := bulkOptions this |}.

Definition set_rowsData (b : WritableTrackingBuffer) (this : BulkLoad)
  : BulkLoad :=
  {| error := error this; canceled := canceled this; timeout := timeout this;
     table := table this; options := options this; columns := columns this;
     columnsByName := columnsByName this;
     firstRowWritten := firstRowWritten this;
     rowsData := b; bulkOptions := bulkOptions this |}.

(** [this.columns.push(column); this.columnsByName[name] = column] *)
Definition push_column (nm : string) (c : Column) (this : BulkLoad)
  : BulkLoad :=
  {| error := error this; canceled := canceled this; timeout := timeout this;
     table := table this; options := options this;
     columns := columns this ++ [c];
     columnsByName := assign nm c (columnsByName this);
     firstRowWritten := firstRowWritten this;
     rowsData := rowsData this; bulkOptions := bulkOptions this |}.

Definition default {A} (d : A) (o : option A) : A :=
  match o with
  | Some a => a
  | None => d
  end.

(** A destructuring default: it applies to [undefined] only. *)
Definition defaultJs (d : JsValue) (v : JsValue) : JsValue :=
  match v with
  | JsUndefined => d
  | _ => v
  end.

Definition isBoolean (v : JsValue) : bool := String.eqb (typeof v) "boolean".

Definition asBool (v : JsValue) : bool :=
  match v with
  | JsBool b => b
  | _ => false
  end.

Definition dquote : string := String (ascii_of_nat 34) EmptyString.

(** The message of the [TypeError] thrown for a non-boolean option. *)
Definition mustBeBoolean (field : string) : string :=
  String.append "The "
    (String.append dquote
       (String.append "options."
          (String.append field
             (String.append dquote " property must be of type boolean.")))).

(** [new BulkLoad(table, connectionOptions, options, callback)] *)
Definition constructor (tbl : string) (connectionOptions : ConnectionOptions)
    (o : Options) : Completion BulkLoad :=
  let checkConstraints := defaultJs (JsBool false) (o_checkConstraints o) in
  let fireTriggers := defaultJs (JsBool false) (o_fireTriggers o) in
  let keepNulls := defaultJs (JsBool false) (o_keepNulls o) in
  let lockTable := defaultJs (JsBool false) (o_lockTable o) in
  if negb (isBoolean checkConstraints) then
    Throw (TypeError (mustBeBoolean "checkConstraints"))
  else if negb (isBoolean fireTriggers) then
    Throw (TypeError (mustBeBoolean "fireTriggers"))
  else if negb (isBoolean keepNulls) then
    Throw (TypeError (mustBeBoolean "keepNulls"))
  else if negb (isBoolean lockTable) then
    Throw (TypeError (mustBeBoolean "lockTable"))
  else
    Return
      {| error := None; canceled := false; timeout := None;
         table := tbl; options := connectionOptions;
         columns := []; columnsByName := emptyIndex;
         firstRowWritten := false;
         rowsData := newWritableTrackingBuffer 1024 true;
         bulkOptions :=
           {| checkConstraints := asBool checkConstraints;
              fireTriggers := asBool fireTriggers;
              keepNulls := asBool keepNulls;
              lockTable := asBool lockTable |} |}.

(** One of the three resolution steps of [addColumn]: when the field is
    [undefined] and the descriptor has the capability, call it and store
    what it returns. *)
Definition resolveWith
    (get : ColumnFields -> option Z)
    (set : option Z -> ColumnFields -> ColumnFields)
    (resolve : option (ColumnFields -> Completion (option Z)))
    (column : ColumnFields) : Completion ColumnFields :=
  match get column, resolve with
  | None, Some f =>
      match f column with
      | Return v => Return (set v column)
      | Throw e => Throw e
      end
  | _, _ => Return column
  end.

Definition StateError : Exception :=
  Error
    "Columns cannot be added to bulk insert after the first row has been written.".

Definition addColumn (nm : string) (ty : DataType) (o : ColumnOptions)
  : Method unit := fun this =>
  if firstRowWritten this then (Throw StateError, this)
  else
    let column :=
      {| name := nm; value := JsNull;
         output := default false (co_output o);
         length := co_length o; precision := co_precision o;
         scale := co_scale o;
         objName := default nm (co_objName o);
         nullable := Some (default true (co_nullable o)) |} in
    match (if Z.land (id ty) 0x30 =? 0x20
           then resolveWith length set_length (resolveLength ty) column
           else Return column) with
    | Throw e => (Throw e, this)
    | Return column =>
    match (if hasPrecision ty
           then resolveWith precision set_precision (resolvePrecision ty) column
           else Return column) with
    | Throw e => (Throw e, this)
    | Return column =>
    match (if hasScale ty
           then resolveWith scale set_scale (resolveScale ty) column
           else Return column) with
    | Throw e => (Throw e, this)
    | Return column =>
        (Return tt, push_column nm {| type := ty; fields := column |} this)
    end end end.

Definition setTimeout (t : option Z) : Method unit := fun this =>
  (Return tt,
   {| error := error this; canceled := canceled this; timeout := t;
      table := table this; options := options this; columns := columns this;
      columnsByName := columnsByName this;
      firstRowWritten := firstRowWritten this;
      rowsData := rowsData this; bulkOptions := bulkOptions this |}).

(** ** Command text *)

Definition getOptionsSql (this : BulkLoad) : string :=
  let addOptions : list string := [] in
  let addOptions :=
    if checkConstraints (bulkOptions this)
    then (addOptions ++ ["CHECK_CONSTRAINTS"])%list else addOptions in
  let addOptions :=
    if fireTriggers (bulkOptions this)
    then (addOptions ++ ["FIRE_TRIGGERS"])%list else addOptions in
  let addOptions :=
    if keepNulls (bulkOptions this)
    then (addOptions ++ ["KEEP_NULLS"])%list else addOptions in
  let addOptions :=
    if lockTable (bulkOptions this)
    then (addOptions ++ ["TABLOCK"])%list else addOptions in
  if (0 <? Z.of_nat (List.length addOptions))
  then String.append " WITH ("
         (String.append (String.concat "," addOptions) ")")
  else "".

(** The body of the column loop of [getBulkInsertSql], from index [i] on. *)
Fixpoint bulkInsertColumns (i : nat) (cols : list Column) (sql : string)
  : string :=
  match cols with
  | [] => sql
  | c :: rest =>
      let sql := if negb (Nat.eqb i 0) then String.append sql ", " else sql in
      let sql :=
        String.append sql
          (String.append "["
             (String.append (name (fields c))
                (String.append "] " (declaration (type c) (fields c))))) in
      bulkInsertColumns (S i) rest sql
  end.

Definition getBulkInsertSql (this : BulkLoad) : string :=
  let sql := String.append "insert bulk " (String.append (table this) "(") in
  let sql := bulkInsertColumns 0 (columns this) sql in
  let sql := String.append sql ")" in
  let sql := String.append sql (getOptionsSql this) in
  sql.

Definition newline : string := String (ascii_of_nat 10) EmptyString.

Fixpoint tableCreationColumns (i : nat) (cols : list Column) (sql : string)
  : string :=
  match cols with
  | [] => sql
  | c :: rest =>
      let sql :=
        if negb (Nat.eqb i 0)
        then String.append sql (String.append "," newline) else sql in
      let sql :=
        String.append sql
          (String.append "["
             (String.append (name (fields c))
                (String.append "] " (declaration (type c) (fields c))))) in
      let sql :=
        match nullable (fields c) with
        | Some n =>
            String.append sql
              (String.append " " (if n then "NULL" else "NOT NULL"))
        | None => sql
        end in
      tableCreationColumns (S i) rest sql
  end.

Definition getTableCreationSql (this : BulkLoad) : string :=
  let sql :=
    String.append "CREATE TABLE "
      (String.append (table this) (String.append "(" newline)) in
  let sql := tableCreationColumns 0 (columns this) sql in
  String.append sql (String.append newline ")").

(** ** Encoders *)

Section Encoders.

Variable TOKEN_TYPE : TYPE.

(** The loop of [addRow]: for each column in registry order, the type
    descriptor writes the value [valueOf i c] to the row buffer; a throw
    ends the loop with the bytes written so far in place. *)
Fixpoint writeColumns (valueOf : nat -> Column -> JsValue)
    (opts : ConnectionOptions) (i : nat) (cols : list Column)
    (buf : WritableTrackingBuffer)
  : Completion unit * WritableTrackingBuffer :=
  match cols with
  | [] => (Return tt, buf)
  | c :: rest =>
      let '(bytes, thrown) :=
        writeParameterData (type c)
          {| p_length := length (fields c); p_scale := scale (fields c);
             p_precision := precision (fields c);
             p_value := valueOf i c |} opts in
      let buf := write bytes buf in
      match thrown with
      | Some e => (Throw e, buf)
      | None => writeColumns valueOf opts (S i) rest buf
      end
  end.

(** The choice between the argument list and its single element. *)
Definition chooseRow (input : list JsValue) : JsValue :=
  let input0 := nth 0 input JsUndefined in
  if (1 <? Z.of_nat (List.length input))
     || negb (truthy input0)
     || negb (String.eqb (typeof input0) "object")
  then JsArray input
  else input0.

Definition addRow (input : list JsValue) : Method unit := fun this =>
  let this := set_firstRowWritten true this in
  let row := chooseRow input in
  (* write row token *)
  let this := set_rowsData (writeUInt8 (ROW TOKEN_TYPE) (rowsData this)) this in
  (* write each column *)
  let '(r, buf) :=
    if instanceofArray row then
      writeColumns (fun i _ => getIndex row i) (options this) 0
        (columns this) (rowsData this)
    else
      writeColumns (fun _ c => getProp row (objName (fields c)))
        (options this) 0 (columns this) (rowsData this) in
  (r, set_rowsData buf this).

(** The flags of one column, as [getColMetaData] computes them. *)
Definition columnFlags (opts : ConnectionOptions) (c : Column) : Z :=
  let flags := FLAGS.updateableReadWrite in
  if default false (nullable (fields c)) then
    Z.lor flags FLAGS.nullable
  else if (match nullable (fields c) with None => true | Some _ => false end)
          && js_ge (tdsVersion opts) "7_2" then
    Z.lor flags FLAGS.nullableUnknown
  else flags.

(** The column loop of [getColMetaData]; a throw of a descriptor's
    [writeTypeInfo] ends it. *)
Fixpoint writeColumnsMetaData (opts : ConnectionOptions) (cols : list Column)
    (tBuf : WritableTrackingBuffer)
  : Completion unit * WritableTrackingBuffer :=
  match cols with
  | [] => (Return tt, tBuf)
  | c :: rest =>
      (* UserType *)
      let tBuf :=
        if js_lt (tdsVersion opts) "7_2"
        then writeUInt16LE 0 tBuf else writeUInt32LE 0 tBuf in
      (* Flags *)
      let tBuf := writeUInt16LE (columnFlags opts c) tBuf in
      (* TYPE_INFO *)
      let '(bytes, thrown) := writeTypeInfo (type c) (fields c) opts in
      let tBuf := write bytes tBuf in
      match thrown with
      | Some e => (Throw e, tBuf)
      | None =>
          (* ColName *)
          let tBuf := writeBVarchar (name (fields c)) tBuf in
          writeColumnsMetaData opts rest tBuf
      end
  end.

Definition getColMetaData (this : BulkLoad) : Completion (list byte) :=
  let tBuf := newWritableTrackingBuffer 100 true in
  let tBuf := writeUInt8 (COLMETADATA TOKEN_TYPE) tBuf in
  let tBuf := writeUInt16LE (Z.of_nat (List.length (columns this))) tBuf in
  match writeColumnsMetaData (options this) (columns this) tBuf with
  | (Throw e, _) => Throw e
  | (Return _, tBuf) => Return (fst (data tBuf))
  end.

(** The DONE token of [getPayload]. *)
Definition doneToken (opts : ConnectionOptions) : WritableTrackingBuffer :=
  let tBuf :=
    newWritableTrackingBuffer
      (if js_lt (tdsVersion opts) "7_2" then 9 else 13) false in
  let tBuf := writeUInt8 (DONE TOKEN_TYPE) tBuf in
  let status := DONE_STATUS.FINAL in
  let tBuf := writeUInt16LE status tBuf in
  let tBuf := writeUInt16LE 0 tBuf in
  let tBuf := writeUInt32LE 0 tBuf in
  if js_ge (tdsVersion opts) "7_2" then writeUInt32LE 0 tBuf else tBuf.

Definition getPayload : Method WritableTrackingBuffer := fun this =>
  match getColMetaData this with
  | Throw e => (Throw e, this)
  | Return metaData =>
      let len := Z.of_nat (List.length metaData) in
      let '(rows, rd) := data (rowsData this) in
      let this := set_rowsData rd this in
      let len := len + Z.of_nat (List.length rows) in
      let done := fst (data (doneToken (options this))) in
      let len := len + Z.of_nat (List.length done) in
      let payload := newWritableTrackingBuffer len false in
      let payload := copyFrom metaData payload in
      let payload := copyFrom rows payload in
      let payload := copyFrom done payload in
      (Return payload, this)
  end.

End Encoders.

(** ** Sample data *)

Module Samples.

(** The marker values of the TDS protocol. *)
Definition TOKEN_TYPE : TYPE :=
  {| ROW := 0xD1; DONE := 0xFD; COLMETADATA := 0x81 |}.

(** A four-byte integer descriptor: a length byte, then the value; it
    rejects a value that is not a number after the length byte is out. *)
Definition Int : DataType :=
  {| id := 0x26;
     resolveLength := Some (fun _ => Return (Some 4));
     hasPrecision := false; resolvePrecision := None;
     hasScale := false; resolveScale := None;
     writeTypeInfo := fun _ _ => ([0x26; 4], None);
     writeParameterData := fun p _ =>
       match p_value p with
       | JsNumber z => (4 :: uint32LE z, None)
       | JsNull | JsUndefined => ([0], None)
       | _ => ([4], Some (EncodingError "Invalid number."))
       end;
     declaration := fun _ => "int" |}.

Definition noColumnOptions : ColumnOptions :=
  {| co_output := None; co_length := None; co_precision := None;
     co_scale := None; co_objName := None; co_nullable := None |}.

Definition nullableOption (n : bool) : ColumnOptions :=
  {| co_output := None; co_length := None; co_precision := None;
     co_scale := None; co_objName := None; co_nullable := Some n |}.

Definition noOptions : Options :=
  {| o_checkConstraints := JsUndefined; o_fireTriggers := JsUndefined;
     o_keepNulls := JsUndefined; o_lockTable := JsUndefined |}.

Definition tds (v : string) : ConnectionOptions := {| tdsVersion := v |}.

(** What [new BulkLoad('t', {tdsVersion: v}, {})] builds. *)
Definition fresh (v : string) : BulkLoad :=
  {| error := None; canceled := false; timeout := None;
     table := "t"; options := tds v;
     columns := []; columnsByName := emptyIndex; firstRowWritten := false;
     rowsData := newWritableTrackingBuffer 1024 true;
     bulkOptions :=
       {| checkConstraints := false; fireTriggers := false;
          keepNulls := false; lockTable := false |} |}.

(** The instance after [addColumn('a', Int, {})] and
    [addColumn('b', Int, {})]. *)
Definition twoColumns (v : string) : BulkLoad :=
  snd (addColumn "b" Int noColumnOptions
         (snd (addColumn "a" Int noColumnOptions (fresh v)))).

End Samples.

(** ** Operations as data, for statements about call sequences *)

Inductive Call : Type :=
| CallAddColumn (nm : string) (ty : DataType) (o : ColumnOptions)
| CallAddRow (input : list JsValue)
| CallGetPayload
| CallGetColMetaData
| CallGetOptionsSql
| CallGetBulkInsertSql
| CallGetTableCreationSql
| CallSetTimeout (t : option Z).

(** The instance after one call, whether the call returned or threw. *)
Definition after (T : TYPE) (c : Call) (this : BulkLoad) : BulkLoad :=
  match c with
  | CallAddColumn nm ty o => snd (addColumn nm ty o this)
  | CallAddRow input => snd (addRow T input this)
  | CallGetPayload => snd (getPayload T this)
  | CallSetTimeout t => snd (setTimeout t this)
  | CallGetColMetaData | CallGetOptionsSql | CallGetBulkInsertSql
  | CallGetTableCreationSql => this
  end.

Definition afterAll (T : TYPE) (cs : list Call) (this : BulkLoad) : BulkLoad :=
  fold_left (fun s c => after T c s) cs this.

(** The bytes the descriptor of [c] writes as type information, and what
    it throws. *)
Definition typeInfo (opts : ConnectionOptions) (c : Column) : list byte :=
  fst (writeTypeInfo (type c) (fields c) opts).

Definition typeInfoThrown (opts : ConnectionOptions) (c : Column)
  : option Exception := snd (writeTypeInfo (type c) (fields c) opts).

(** The exception of the first column whose [writeTypeInfo] throws. *)
Fixpoint firstTypeInfoThrown (opts : ConnectionOptions) (cols : list Column)
  : option Exception :=
  match cols with
  | [] => None
  | c :: rest =>
      match typeInfoThrown opts c with
      | Some e => Some e
      | None => firstTypeInfoThrown opts rest
      end
  end.

(** The bytes [getColMetaData] emits for one column whose descriptor
    returns. *)
Definition columnMetaData (opts : ConnectionOptions) (c : Column) : list byte :=
  (if js_lt (tdsVersion opts) "7_2" then uint16LE 0 else uint32LE 0)
  ++ uint16LE (columnFlags opts c)
  ++ typeInfo opts c
  ++ uint8 (Z.of_nat (String.length (name (fields c))))
  ++ ucs2 (name (fields c)).

(** The metadata token of an instance whose descriptors all return. *)
Definition metaDataBytes (T : TYPE) (this : BulkLoad) : list byte :=
  uint8 (COLMETADATA T)
  ++ uint16LE (Z.of_nat (List.length (columns this)))
  ++ flat_map (columnMetaData (options this)) (columns this).

(** What the specification asks of a failed [addRow]: its bytes are
    discarded, or the instance refuses to go on, be it by refusing every
    later [addRow] or by refusing [getPayload]. *)
Definition failedRowDiscardedOrRefused (T : TYPE) (this : BulkLoad)
    (input : list JsValue) : Prop :=
  forall e this',
    addRow T input this = (Throw e, this') ->
    contents (rowsData this') = contents (rowsData this)
    \/ (forall input', isThrow (fst (addRow T input' this')) = true)
    \/ isThrow (fst (getPayload T this')) = true.

(** A flag bit is set in a bitmask. *)
Definition hasFlag (flags bit : Z) : bool := negb (Z.land flags bit =? 0).

(** What the specification says of [getPayload] on any instance: it
    returns a buffer holding the metadata token, the row bytes and the
    completion token. *)
Definition getPayloadReturns (T : TYPE) (this : BulkLoad) : Prop :=
  exists payload this',
    getPayload T this = (Return payload, this').

(** What the specification says of a column registered without a
    [nullable] option on a version from 7_2 on. *)
Definition omittedNullableIsUnknown (this : BulkLoad) (nm : string)
    (ty : DataType) (o : ColumnOptions) : Prop :=
  co_nullable o = None ->
  js_ge (tdsVersion (options this)) "7_2" = true ->
  forall this' c,
    addColumn nm ty o this = (Return tt, this') ->
    last (columns this') = Some c ->
    hasFlag (columnFlags (options this') c) FLAGS.nullableUnknown = true
    /\ hasFlag (columnFlags (options this') c) FLAGS.nullable = false.

(** A row written with the value [valueOf i c] for the column [c] at index
    [i]: the latch, the row marker, then the columns in registry order. *)
Definition writeRow (T : TYPE) (valueOf : nat -> Column -> JsValue)
  : Method unit := fun this =>
  let this := set_firstRowWritten true this in
  let this := set_rowsData (writeUInt8 (ROW T) (rowsData this)) this in
  let '(r, buf) :=
    writeColumns valueOf (options this) 0 (columns this) (rowsData this) in
  (r, set_rowsData buf this).

(** A flag that was supplied and is not a boolean. *)
Definition suppliedNonBoolean (v : JsValue) : bool :=
  match v with
  | JsUndefined | JsBool _ => false
  | _ => true
  end.

(** ** Vocabulary for the statements about call histories and rows *)

Definition isAddRow (c : Call) : bool :=
  match c with
  | CallAddRow _ => true
  | _ => false
  end.

(** The object [addRow] hands to the descriptor of column [c] for the
    value [v]. *)
Definition parameterOf (c : Column) (v : JsValue) : ParameterData :=
  {| p_length := length (fields c); p_scale := scale (fields c);
     p_precision := precision (fields c); p_value := v |}.

(** The bytes the descriptor of [c] writes for [v], and what it throws. *)
Definition encoded (opts : ConnectionOptions) (c : Column) (v : JsValue)
  : list byte := fst (writeParameterData (type c) (parameterOf c v) opts).

Definition thrown (opts : ConnectionOptions) (c : Column) (v : JsValue)
  : option Exception := snd (writeParameterData (type c) (parameterOf c v) opts).

(** Two instances that differ at most in how the row buffer is cut into
    chunks. *)
Definition sameBytes (a b : BulkLoad) : Prop :=
  error a = error b /\ canceled a = canceled b /\ timeout a = timeout b
  /\ table a = table b /\ options a = options b /\ columns a = columns b
  /\ columnsByName a = columnsByName b
  /\ firstRowWritten a = firstRowWritten b
  /\ bulkOptions a = bulkOptions b
  /\ contents (rowsData a) = contents (rowsData b).

(** The value [addRow] reads for the column [c] at index [i]. *)
Definition valueFor (input : list JsValue) (i : nat) (c : Column) : JsValue :=
  match input with
  | [JsObject props] => getProp (JsObject props) (objName (fields c))
  | [JsArray elems] => nth i elems JsUndefined
  | _ => nth i input JsUndefined
  end.

(** A descriptor whose length resolver rejects the column. *)
Definition rejecting : DataType :=
  {| id := 0x26;
     resolveLength := Some (fun _ => Throw (EncodingError "no length"));
     hasPrecision := false; resolvePrecision := None;
     hasScale := false; resolveScale := None;
     writeTypeInfo := fun _ _ => ([0x26; 4], None);
     writeParameterData := fun _ _ => ([], None);
     declaration := fun _ => "int" |}.

(** A descriptor whose type information cannot be written: it throws
    after the type byte. *)
Definition unwritable : DataType :=
  {| id := 0x26;
     resolveLength := Some (fun _ => Return (Some 4));
     hasPrecision := false; resolvePrecision := None;
     hasScale := false; resolveScale := None;
     writeTypeInfo := fun _ _ => ([0x26], Some (EncodingError "no type info"));
     writeParameterData := fun _ _ => ([], None);
     declaration := fun _ => "int" |}.

(** The text of one column in the two generated commands. *)
Definition columnDefinition (c : Column) : string :=
  String.append "["
    (String.append (name (fields c))
       (String.append "] " (declaration (type c) (fields c)))).

Definition nullability (c : Column) : string :=
  match nullable (fields c) with
  | Some true => " NULL"
  | Some false => " NOT NULL"
  | None => ""
  end.

(** The rest of a separated list: each remaining item after a separator. *)
Definition joinTail (sep : string) (items : list string) : string :=
  fold_right (fun d acc => String.append sep (String.append d acc)) "" items.

(** The four option fields of the constructor with their names, in the
    order the constructor checks them. *)
Definition namedOptions (o : Options) : list (string * JsValue) :=
  [("checkConstraints", o_checkConstraints o);
   ("fireTriggers", o_fireTriggers o);
   ("keepNulls", o_keepNulls o);
   ("lockTable", o_lockTable o)].

(** The bulk options with the names they have in the options clause. *)
Definition namedFlags (b : InternalOptions) : list (string * bool) :=
  [("CHECK_CONSTRAINTS", checkConstraints b);
   ("FIRE_TRIGGERS", fireTriggers b);
   ("KEEP_NULLS", keepNulls b);
   ("TABLOCK", lockTable b)].


(** ** The fixed-layout buffer builder ([buildBuffer]) *)

Module BuildBuffer.

(** The write methods of the platform's [Buffer] that [buildBuffer] calls. *)
Inductive Method : Type :=
| writeInt8 | writeUInt8
| writeInt16BE | writeInt16LE | writeUInt16BE | writeUInt16LE
| writeInt32BE | writeInt32LE | writeUInt32BE | writeUInt32LE.

(** The two errors [buildBuffer] throws itself, with the values its
    messages interpolate, and an exception thrown by a [Buffer] write. *)
Inductive Failure : Type :=
| ExpectedPairs (count : nat)
| FormatNotRecognised (format : JsValue)
| WriteFailed (e : Exception).

Inductive Outcome : Type :=
| Returns (buffer : list byte)
| Throws (f : Failure).

(** [v === s] for a string literal [s]. *)
Definition isString (v : JsValue) (s : string) : bool :=
  match v with
  | JsString s' => String.eqb s' s
  | _ => false
  end.

(** A [when] clause with several literals. *)
Definition oneOf (v : JsValue) (literals : list string) : bool :=
  existsb (isString v) literals.

(** The [switch] of the first loop: the width a format adds to the
    length, [None] for its [else] branch. *)
Definition formatLength (format : JsValue) : option nat :=
  if oneOf format ["8"; "U8"] then Some 1%nat
  else if oneOf format ["16"; "16L"; "U16"; "U16L"] then Some 2%nat
  else if oneOf format ["32"; "32L"; "U32"; "U32L"] then Some 4%nat
  else None.

(** The first loop, [for format in arguments by 2]. *)
Fixpoint totalLength (arguments : list JsValue) (len : nat) : Failure + nat :=
  match arguments with
  | [] => inr len
  | format :: rest =>
      match formatLength format with
      | None => inl (FormatNotRecognised format)
      | Some n =>
          match rest with
          | [] => inr (len + n)%nat
          | _ :: rest' => totalLength rest' (len + n)%nat
          end
      end
  end.

(** The [switch] of the second loop: the write method and the width the
    offset advances by, [None] for its [else] branch. *)
Definition methodOf (format : JsValue) : option (Method * nat) :=
  if isString format "8" then Some (writeInt8, 1%nat)
  else if isString format "U8" then Some (writeUInt8, 1%nat)
  else if isString format "16" then Some (writeInt16BE, 2%nat)
  else if isString format "16L" then Some (writeInt16LE, 2%nat)
  else if isString format "U16" then Some (writeUInt16BE, 2%nat)
  else if isString format "U16L" then Some (writeUInt16LE, 2%nat)
  else if isString format "32" then Some (writeInt32BE, 4%nat)
  else if isString format "32L" then Some (writeInt32LE, 4%nat)
  else if isString format "U32" then Some (writeUInt32BE, 4%nat)
  else if isString format "U32L" then Some (writeUInt32LE, 4%nat)
  else None.

Section Platform.

(** [new Buffer(length)]: the platform's allocation, whose initial bytes
    are its own business. *)
Variable alloc : nat -> list byte.

(** [buffer.method(value, offset)]: the buffer afterwards, or what the
    platform throws. *)
Variable write :
  Method -> JsValue -> nat -> list byte -> Completion (list byte).

(** The second loop, [for a in [0..arguments.length - 1] by 2], with
    [arguments[a + 1]] being [undefined] past the end. *)
Fixpoint writeAll (arguments : list JsValue) (offset : nat)
    (buffer : list byte) : Outcome :=
  match arguments with
  | [] => Returns buffer
  | format :: rest =>
      let value := nth 0 rest JsUndefined in
      match methodOf format with
      | None => Throws (FormatNotRecognised format)
      | Some (method, n) =>
          match write method value offset buffer with
          | Throw e => Throws (WriteFailed e)
          | Return buffer' =>
              match rest with
              | [] => Returns buffer'
              | _ :: rest' => writeAll rest' (offset + n)%nat buffer'
              end
          end
      end
  end.

Definition buildBuffer (arguments : list JsValue) : Outcome :=
  if negb (Nat.eqb (List.length arguments mod 2) 0) then
    Throws (ExpectedPairs (List.length arguments))
  else
    match totalLength arguments 0 with
    | inl f => Throws f
    | inr len => writeAll arguments 0 (alloc len)
    end.

End Platform.

(** The argument list read as (format, value) pairs. *)
Fixpoint pairs (arguments : list JsValue) : list (JsValue * JsValue) :=
  match arguments with
  | [] => []
  | format :: rest =>
      (format, nth 0 rest JsUndefined)
      :: match rest with
         | [] => []
         | _ :: rest' => pairs rest'
         end
  end.

(** The integers a method accepts. *)
Definition inRange (m : Method) (z : Z) : bool :=
  match m with
  | writeInt8 => (-128 <=? z) && (z <? 128)
  | writeUInt8 => (0 <=? z) && (z <? 256)
  | writeInt16BE | writeInt16LE => (-32768 <=? z) && (z <? 32768)
  | writeUInt16BE | writeUInt16LE => (0 <=? z) && (z <? 65536)
  | writeInt32BE | writeInt32LE => (-2147483648 <=? z) && (z <? 2147483648)
  | writeUInt32BE | writeUInt32LE => (0 <=? z) && (z <? 4294967296)
  end.

Definition width (m : Method) : nat :=
  match m with
  | writeInt8 | writeUInt8 => 1
  | writeInt16BE | writeInt16LE | writeUInt16BE | writeUInt16LE => 2
  | _ => 4
  end%nat.

(** The low [n] bytes of [z], least significant first; a negative [z]
    gives its two's complement. *)
Fixpoint littleEndian (n : nat) (z : Z) : list byte :=
  match n with
  | O => []
  | S n' => z mod 256 :: littleEndian n' (z / 256)
  end.

(** The bytes a method stores for an integer in its range. *)
Definition stored (m : Method) (z : Z) : list byte :=
  match m with
  | writeInt16LE | writeUInt16LE | writeInt32LE | writeUInt32LE =>
      littleEndian (width m) z
  | _ => rev (littleEndian (width m) z)
  end.

(** What the platform documents for a write of an integer in range that
    fits the buffer: the bytes at the offset are replaced. *)
Definition writesIntegers
    (write : Method -> JsValue -> nat -> list byte -> Completion (list byte))
  : Prop :=
  forall m z offset buffer,
    inRange m z = true ->
    (offset + width m <= List.length buffer)%nat ->
    write m (JsNumber z) offset buffer
    = Return (take offset buffer ++ stored m z
              ++ drop (offset + width m) buffer).

(** A pair [buildBuffer] can encode: a recognised format and an integer in
    the range of its method. *)
Definition encodable (p : JsValue * JsValue) : Prop :=
  exists m n z,
    methodOf (fst p) = Some (m, n) /\ snd p = JsNumber z
    /\ inRange m z = true.

Definition bytesOf (p : JsValue * JsValue) : list byte :=
  match methodOf (fst p), snd p with
  | Some (m, _), JsNumber z => stored m z
  | _, _ => []
  end.

(** A pair whose format the first loop rejects. *)
Definition unrecognised (p : JsValue * JsValue) : bool :=
  match formatLength (fst p) with
  | None => true
  | Some _ => false
  end.

(** The width the first loop counts for a pair. *)
Definition widthOf (p : JsValue * JsValue) : nat :=
  match formatLength (fst p) with
  | Some n => n
  | None => 0
  end.

(** A platform for examples: memory that is not zeroed, and writes that
    check the type, the range and the bounds. *)
Definition sampleAlloc (n : nat) : list byte := repeat 0xAA n.

Definition sampleWrite (m : Method) (v : JsValue) (offset : nat)
    (buffer : list byte) : Completion (list byte) :=
  match v with
  | JsNumber z =>
      if inRange m z && (offset + width m <=? List.length buffer)%nat
      then Return (take offset buffer ++ stored m z
                   ++ drop (offset + width m) buffer)
      else Throw (Error "value is out of bounds")
  | _ => Throw (TypeError "value is not a number")
  end.

End BuildBuffer.

(** * Properties *)

(** ** The tracking buffer *)

Lemma contents_newBuffer sz b : contents (newBuffer sz b) = contents b.
Proof. unfold contents, newBuffer; simpl. by rewrite app_nil_r. Qed.

Lemma contents_makeRoomFor n b : contents (makeRoomFor n b) = contents b.
Proof.
  unfold makeRoomFor.
  destruct (_ <? _); [destruct (doubleSizeGrowth b)|];
    auto using contents_newBuffer.
Qed.

Lemma contents_write bytes b : contents (write bytes b) = contents b ++ bytes.
Proof.
  unfold write, contents at 1; simpl.
  rewrite app_assoc. f_equal. apply contents_makeRoomFor.
Qed.

Lemma data_contents b : fst (data b) = contents b.
Proof. reflexivity. Qed.

Lemma contents_data b : contents (snd (data b)) = contents b.
Proof. unfold data; simpl. apply contents_newBuffer. Qed.

Lemma contents_new n d : contents (newWritableTrackingBuffer n d) = [].
Proof. reflexivity. Qed.

(** A write that fits leaves the chunk in place. *)
Lemma write_fits bytes b :
  position b + Z.of_nat (List.length bytes) <= capacity b ->
  write bytes b =
    {| initialSize := initialSize b; doubleSizeGrowth := doubleSizeGrowth b;
       capacity := capacity b; buffer := buffer b ++ bytes;
       compositeBuffer := compositeBuffer b |}.
Proof.
  intros Hfit. unfold write, makeRoomFor.
  destruct (Z.ltb_spec (capacity b - position b) (Z.of_nat (List.length bytes)));
    [lia | reflexivity].
Qed.

Create Rewrite HintDb buf.
#[global] Hint Rewrite contents_write contents_data contents_new
  contents_newBuffer data_contents : buf.

(** The column loop of the metadata encoder, read as a whole: it throws
    what the first throwing [writeTypeInfo] throws, and otherwise appends
    one entry per column. *)
Lemma writeColumnsMetaData_outcome opts cols tBuf :
  match firstTypeInfoThrown opts cols with
  | Some e => fst (writeColumnsMetaData opts cols tBuf) = Throw e
  | None =>
      fst (writeColumnsMetaData opts cols tBuf) = Return tt
      /\ contents (snd (writeColumnsMetaData opts cols tBuf))
         = contents tBuf ++ flat_map (columnMetaData opts) cols
  end.
Proof.
  revert tBuf. induction cols as [|c cols IH]; intros tBuf.
  - simpl. by rewrite app_nil_r.
  - cbn [writeColumnsMetaData firstTypeInfoThrown flat_map].
    unfold typeInfoThrown at 1. unfold columnMetaData at 1. unfold typeInfo at 1.
    destruct (writeTypeInfo (type c) (fields c) opts) as [bytes [e|]];
      cbn [fst snd]; [reflexivity|].
    match goal with
    | |- context [writeColumnsMetaData opts cols ?b] => specialize (IH b)
    end.
    destruct (firstTypeInfoThrown opts cols); [exact IH|].
    destruct IH as [-> ->]. split; [reflexivity|].
    unfold writeBVarchar, writeUInt8, writeUInt16LE, writeUInt32LE.
    destruct (js_lt _ _); autorewrite with buf;
      rewrite <- ?app_assoc; reflexivity.
Qed.

(** The COLMETADATA token: the exception of the first throwing
    [writeTypeInfo], or else marker, column count and one entry per column
    in registry order. *)
Lemma getColMetaData_outcome T this :
  getColMetaData T this =
    match firstTypeInfoThrown (options this) (columns this) with
    | Some e => Throw e
    | None => Return (metaDataBytes T this)
    end.
Proof.
  unfold getColMetaData.
  match goal with
  | |- context [writeColumnsMetaData ?o ?cs ?b] =>
      pose proof (writeColumnsMetaData_outcome o cs b) as H;
      destruct (writeColumnsMetaData o cs b) as [r tBuf]
  end.
  destruct (firstTypeInfoThrown _ _); cbn [fst snd] in H.
  - by subst r.
  - destruct H as [-> H]. rewrite data_contents, H.
    unfold writeUInt8, writeUInt16LE, metaDataBytes. autorewrite with buf.
    by rewrite <- app_assoc.
Qed.

Lemma getColMetaData_bytes T this metaData :
  getColMetaData T this = Return metaData -> metaData = metaDataBytes T this.
Proof.
  rewrite getColMetaData_outcome.
  destruct (firstTypeInfoThrown _ _); [discriminate | by intros [= <-]].
Qed.

Lemma firstTypeInfoThrown_None opts cols :
  firstTypeInfoThrown opts cols = None
  <-> forall c, In c cols -> typeInfoThrown opts c = None.
Proof.
  induction cols as [|c cols IH]; cbn [firstTypeInfoThrown].
  - split; [intros _ ? [] | reflexivity].
  - destruct (typeInfoThrown opts c) eqn:E.
    + split; [discriminate|]. intros H.
      specialize (H c (or_introl eq_refl)). congruence.
    + rewrite IH. split.
      * intros H c' [<-|Hin]; auto.
      * intros H c' Hin. apply H. by right.
Qed.

Lemma firstTypeInfoThrown_Some opts cols e :
  firstTypeInfoThrown opts cols = Some e ->
  exists c, In c cols /\ typeInfoThrown opts c = Some e.
Proof.
  induction cols as [|c cols IH]; cbn [firstTypeInfoThrown]; [discriminate|].
  destruct (typeInfoThrown opts c) eqn:E.
  - intros [= <-]. exists c. split; [by left | exact E].
  - intros H. destruct (IH H) as (c' & Hin & Hc'). exists c'. split; auto.
    by right.
Qed.

Lemma getColMetaData_returns T this :
  (forall c, In c (columns this) -> typeInfoThrown (options this) c = None) ->
  getColMetaData T this = Return (metaDataBytes T this).
Proof.
  intros H. apply firstTypeInfoThrown_None in H.
  by rewrite getColMetaData_outcome, H.
Qed.

Lemma getColMetaData_ext T a b :
  columns a = columns b -> options a = options b ->
  getColMetaData T a = getColMetaData T b.
Proof.
  intros Hc Ho. rewrite !getColMetaData_outcome. unfold metaDataBytes.
  by rewrite Hc, Ho.
Qed.

(** ** The payload *)

(** Three copies into a buffer allocated at the summed length all land in
    the first chunk. *)
Lemma copyFrom_exact (a b c : list byte) :
  let len :=
    Z.of_nat (List.length a) + Z.of_nat (List.length b)
    + Z.of_nat (List.length c) in
  copyFrom c (copyFrom b (copyFrom a (newWritableTrackingBuffer len false)))
  = {| initialSize := len; doubleSizeGrowth := false; capacity := len;
       buffer := a ++ b ++ c; compositeBuffer := [] |}.
Proof.
  intros len. unfold copyFrom.
  rewrite (write_fits a); [|unfold position; simpl; lia]. simpl.
  rewrite (write_fits b); [|unfold position; simpl; lia]. simpl.
  rewrite (write_fits c);
    [|unfold position; simpl; rewrite List.length_app; lia]. simpl.
  by rewrite <- app_assoc.
Qed.

(** [getPayload] throws what the metadata encoder throws, before it
    touches the row buffer; otherwise it assembles the three parts. *)
Lemma getPayload_eq T this :
  getPayload T this =
    match getColMetaData T this with
    | Throw e => (Throw e, this)
    | Return metaData =>
        let rows := contents (rowsData this) in
        let done := contents (doneToken T (options this)) in
        let len :=
          Z.of_nat (List.length metaData) + Z.of_nat (List.length rows)
          + Z.of_nat (List.length done) in
        (Return
           {| initialSize := len; doubleSizeGrowth := false; capacity := len;
              buffer := metaData ++ rows ++ done; compositeBuffer := [] |},
         set_rowsData (snd (data (rowsData this))) this)
    end.
Proof.
  unfold getPayload. destruct (getColMetaData T this) as [metaData|e];
    [|reflexivity].
  simpl. rewrite copyFrom_exact. reflexivity.
Qed.

Lemma doneToken_eq T opts :
  doneToken T opts =
    let n := if js_lt (tdsVersion opts) "7_2" then 9 else 13 in
    {| initialSize := n; doubleSizeGrowth := false; capacity := n;
       buffer :=
         (DONE T mod 256) :: [0; 0; 0; 0; 0; 0; 0; 0]
         ++ (if js_lt (tdsVersion opts) "7_2" then [] else [0; 0; 0; 0]);
       compositeBuffer := [] |}.
Proof.
  unfold doneToken, js_ge. destruct (js_lt _ _); reflexivity.
Qed.

(** C4. The completion token [getPayload] builds is 9 bytes before
    protocol version 7_2 and 13 bytes from 7_2 on: the DONE marker, a
    two-byte little-endian status equal to [FINAL] = 0, a two-byte current
    command equal to 0 and a row count of one or two four-byte
    little-endian zeros. The buffer is allocated at that size and never
    regrown, and the payload ends with these bytes whatever rows were
    appended; [getPayload] returns no payload only when the metadata
    encoder throws. *)
Theorem doneToken_layout (T : TYPE) (this : BulkLoad) :
  let v := tdsVersion (options this) in
  let tBuf := doneToken T (options this) in
  let done := fst (data tBuf) in
  done = uint8 (DONE T) ++ uint16LE DONE_STATUS.FINAL ++ uint16LE 0
         ++ uint32LE 0 ++ (if js_ge v "7_2" then uint32LE 0 else [])
  /\ DONE_STATUS.FINAL = 0
  /\ (if js_lt v "7_2"
      then done = [DONE T mod 256; 0; 0; 0; 0; 0; 0; 0; 0]
           /\ List.length done = 9%nat
      else js_ge v "7_2" = true
           /\ done = [DONE T mod 256; 0; 0; 0; 0; 0; 0; 0; 0; 0; 0; 0; 0]
           /\ List.length done = 13%nat)
  /\ initialSize tBuf = Z.of_nat (List.length done)
  /\ capacity tBuf = initialSize tBuf
  /\ compositeBuffer tBuf = []
  /\ match getColMetaData T this with
     | Return metaData =>
         exists payload this' front,
           getPayload T this = (Return payload, this')
           /\ contents payload = front ++ done
           /\ front = metaData ++ contents (rowsData this)
     | Throw e => getPayload T this = (Throw e, this)
     end
  /\ ((forall c, In c (columns this) ->
                 typeInfoThrown (options this) c = None) ->
      exists payload this' front,
        getPayload T this = (Return payload, this')
        /\ contents payload = front ++ done
        /\ front = metaDataBytes T this ++ contents (rowsData this)).
Proof.
  intros v tBuf done. subst done tBuf v.
  assert (Hpayload : forall metaData,
            getColMetaData T this = Return metaData ->
            exists payload this' front,
              getPayload T this = (Return payload, this')
              /\ contents payload
                 = front ++ fst (data (doneToken T (options this)))
              /\ front = metaData ++ contents (rowsData this)).
  { intros metaData Hmeta. rewrite getPayload_eq, Hmeta, data_contents.
    cbv zeta. eexists _, _, _. split; [reflexivity|].
    split; [|reflexivity]. unfold contents at 1.
    cbn [compositeBuffer buffer app]. by rewrite <- !app_assoc. }
  assert (Hlayout : forall rest : Prop, rest ->
            let v := tdsVersion (options this) in
            let tBuf := doneToken T (options this) in
            let done := fst (data tBuf) in
            done = uint8 (DONE T) ++ uint16LE DONE_STATUS.FINAL ++ uint16LE 0
                   ++ uint32LE 0 ++ (if js_ge v "7_2" then uint32LE 0 else [])
            /\ DONE_STATUS.FINAL = 0
            /\ (if js_lt v "7_2"
                then done = [DONE T mod 256; 0; 0; 0; 0; 0; 0; 0; 0]
                     /\ List.length done = 9%nat
                else js_ge v "7_2" = true
                     /\ done = [DONE T mod 256; 0; 0; 0; 0; 0; 0; 0; 0; 0; 0; 0; 0]
                     /\ List.length done = 13%nat)
            /\ initialSize tBuf = Z.of_nat (List.length done)
            /\ capacity tBuf = initialSize tBuf
            /\ compositeBuffer tBuf = []
            /\ rest).
  { intros rest Hrest. cbv zeta. rewrite data_contents, doneToken_eq.
    unfold js_ge. destruct (js_lt _ _); cbv zeta; unfold contents;
      cbn [compositeBuffer buffer initialSize capacity negb app List.length];
      (repeat apply conj; try reflexivity); exact Hrest. }
  apply Hlayout. split.
  - destruct (getColMetaData T this) as [metaData|e] eqn:Hmeta.
    + by apply Hpayload.
    + by rewrite getPayload_eq, Hmeta.
  - intros Hinfo. apply Hpayload. by apply getColMetaData_returns.
Qed.

(** C5, as the code has it. When no registered column's descriptor throws
    from [writeTypeInfo], [getPayload] returns, for every instance (so
    after every sequence of column registrations and row appends, the
    empty one included), a buffer holding the metadata token, then the
    accumulated row bytes, then the completion token; the buffer is
    allocated at the summed length of the three and all bytes sit in that
    one allocation. *)
Theorem getPayload_concat (T : TYPE) (this : BulkLoad) :
  (forall c, In c (columns this) -> typeInfoThrown (options this) c = None) ->
  let rows := contents (rowsData this) in
  let done := fst (data (doneToken T (options this))) in
  exists metaData payload this',
    getColMetaData T this = Return metaData
    /\ metaData = metaDataBytes T this
    /\ getPayload T this = (Return payload, this')
    /\ fst (data payload) = metaData ++ rows ++ done
    /\ initialSize payload
       = Z.of_nat (List.length metaData) + Z.of_nat (List.length rows)
         + Z.of_nat (List.length done)
    /\ initialSize payload = Z.of_nat (List.length (fst (data payload)))
    /\ capacity payload = initialSize payload
    /\ compositeBuffer payload = []
    /\ buffer payload = metaData ++ rows ++ done
    /\ (rows = [] -> fst (data payload) = metaData ++ [] ++ done).
Proof.
  intros Hreturns rows done.
  rewrite getPayload_eq, (getColMetaData_returns T this Hreturns).
  eexists _, _, _. split; [reflexivity|]. split; [reflexivity|].
  split; [reflexivity|]. cbv zeta.
  rewrite !data_contents. fold rows. fold done.
  repeat apply conj; try reflexivity.
  - unfold contents; simpl. rewrite !List.length_app. lia.
  - intros ->. reflexivity.
Qed.

(** The amended C5 at a concrete input: two [Int] columns and one row. *)
Lemma getPayload_concat_witness :
  exists metaData payload this',
    getColMetaData Samples.TOKEN_TYPE
      (snd (addRow Samples.TOKEN_TYPE [JsNumber 2; JsNumber 3]
              (Samples.twoColumns "7_4"))) = Return metaData
    /\ getPayload Samples.TOKEN_TYPE
         (snd (addRow Samples.TOKEN_TYPE [JsNumber 2; JsNumber 3]
                 (Samples.twoColumns "7_4"))) = (Return payload, this').
Proof.
  destruct (getPayload_concat Samples.TOKEN_TYPE
              (snd (addRow Samples.TOKEN_TYPE [JsNumber 2; JsNumber 3]
                      (Samples.twoColumns "7_4"))))
    as (metaData & payload & this' & Hm & _ & Hp & _).
  { intros c [<- | [<- | []]]; reflexivity. }
  by exists metaData, payload, this'.
Defined.

(** C5 as stated fails: with a column whose descriptor throws from
    [writeTypeInfo], [getPayload] returns no buffer. *)
Lemma getPayload_counterexample :
  ~ getPayloadReturns Samples.TOKEN_TYPE
      (snd (addColumn "a" unwritable Samples.noColumnOptions
              (Samples.fresh "7_4"))).
Proof. intros (payload & this' & H). discriminate. Qed.

(** C6. Two calls of [getPayload] in a row return the same buffer, byte
    for byte. *)
Theorem getPayload_idempotent (T : TYPE) (this : BulkLoad) :
  let first := getPayload T this in
  let second := getPayload T (snd first) in
  fst second = fst first
  /\ match fst first with
     | Return p1 =>
         exists p2, fst second = Return p2 /\ fst (data p1) = fst (data p2)
     | Throw e => fst second = Throw e
     end
  /\ ((forall c, In c (columns this) ->
                 typeInfoThrown (options this) c = None) ->
      exists p1 p2,
        fst first = Return p1 /\ fst second = Return p2
        /\ fst (data p1) = fst (data p2)).
Proof.
  intros first second.
  assert (Hsame : fst second = fst first).
  { subst second first. rewrite (getPayload_eq T this).
    destruct (getColMetaData T this) as [metaData|e] eqn:Hmeta; cbv zeta;
      cbn [fst snd].
    - assert (Hrows : contents (rowsData (set_rowsData
                                            (snd (data (rowsData this))) this))
                      = contents (rowsData this))
        by (simpl; apply contents_data).
      assert (Hmeta' : getColMetaData T (set_rowsData
                                           (snd (data (rowsData this))) this)
                       = Return metaData) by exact Hmeta.
      rewrite getPayload_eq, Hmeta'. cbv zeta. cbn [fst].
      rewrite Hrows. cbn [options set_rowsData]. reflexivity.
    - by rewrite getPayload_eq, Hmeta. }
  split; [exact Hsame|]. rewrite Hsame. split.
  - destruct (fst first) as [p1|e]; [by exists p1 | reflexivity].
  - intros Hinfo.
    assert (Hfirst : exists p, fst first = Return p).
    { subst first. rewrite getPayload_eq, (getColMetaData_returns T this Hinfo).
      cbv zeta. eexists. reflexivity. }
    destruct Hfirst as [p Hp]. by exists p, p.
Qed.

(** ** What a call leaves in place *)

Ltac addColumn_cases :=
  unfold addColumn, resolveWith;
  repeat match goal with
    | |- context [if ?b then _ else _] => destruct b
    | |- context [match ?x with _ => _ end] => destruct x
    end.

Lemma addColumn_frozen nm ty o this :
  firstRowWritten this = true ->
  addColumn nm ty o this = (Throw StateError, this).
Proof. intros H. unfold addColumn. by rewrite H. Qed.

Lemma addRow_state T input this :
  exists buf,
    snd (addRow T input this)
    = set_rowsData buf (set_firstRowWritten true this).
Proof.
  unfold addRow.
  destruct (instanceofArray _);
    match goal with
    | |- context [writeColumns ?f ?o ?i ?cs ?b] =>
        destruct (writeColumns f o i cs b) as [r buf]
    end; by exists buf.
Qed.

Lemma addRow_latch T input this :
  firstRowWritten (snd (addRow T input this)) = true.
Proof. by destruct (addRow_state T input this) as [buf ->]. Qed.

(** [getPayload] changes at most how the row buffer is cut into chunks. *)
Lemma getPayload_state T this :
  exists buf,
    snd (getPayload T this) = set_rowsData buf this
    /\ contents buf = contents (rowsData this).
Proof.
  rewrite getPayload_eq. destruct (getColMetaData T this) as [metaData|e].
  - eexists. split; [reflexivity|]. apply contents_data.
  - exists (rowsData this). split; [by destruct this | reflexivity].
Qed.

Lemma after_latch T c this :
  firstRowWritten this = true -> firstRowWritten (after T c this) = true.
Proof.
  intros H. destruct c; cbn [after]; auto using addRow_latch.
  - by rewrite addColumn_frozen.
  - by destruct (getPayload_state T this) as (buf & -> & _).
Qed.

Lemma afterAll_latch T cs this :
  firstRowWritten this = true -> firstRowWritten (afterAll T cs this) = true.
Proof.
  revert this. induction cs as [|c cs IH]; intros this H; simpl; auto.
  apply IH. by apply after_latch.
Qed.

(** No call changes the table name, the bulk options or the connection
    options. *)
Lemma after_settings T c this :
  table (after T c this) = table this
  /\ bulkOptions (after T c this) = bulkOptions this
  /\ options (after T c this) = options this.
Proof.
  destruct c; cbn [after]; auto.
  - addColumn_cases; auto.
  - by destruct (addRow_state T input this) as [buf ->].
  - by destruct (getPayload_state T this) as (buf & -> & _).
Qed.

Lemma afterAll_settings T cs this :
  table (afterAll T cs this) = table this
  /\ bulkOptions (afterAll T cs this) = bulkOptions this
  /\ options (afterAll T cs this) = options this.
Proof.
  revert this. induction cs as [|c cs IH]; intros this; simpl; auto.
  destruct (IH (after T c this)) as (-> & -> & ->). apply after_settings.
Qed.

(** ** Command text and construction *)

(** The options clause for each of the sixteen option records: the names of
    the flags that are set, in declaration order, comma-separated. *)
Lemma getOptionsSql_names this :
  getOptionsSql this =
    let names :=
      (if checkConstraints (bulkOptions this) then ["CHECK_CONSTRAINTS"] else [])
      ++ (if fireTriggers (bulkOptions this) then ["FIRE_TRIGGERS"] else [])
      ++ (if keepNulls (bulkOptions this) then ["KEEP_NULLS"] else [])
      ++ (if lockTable (bulkOptions this) then ["TABLOCK"] else []) in
    match names with
    | [] => ""
    | _ => String.append " WITH (" (String.append (String.concat "," names) ")")
    end.
Proof.
  unfold getOptionsSql.
  destruct (checkConstraints _), (fireTriggers _), (keepNulls _), (lockTable _);
    reflexivity.
Qed.

(** C7. An instance built with the options record
    [{lockTable: true, fireTriggers: true}] generates, after any calls, a
    bulk-insert command that ends with the clause
    [ WITH (FIRE_TRIGGERS,TABLOCK)]: the names in declaration order, one
    comma between them and none before or after. Built with no flag set,
    the options clause is empty and the command ends with the closing
    parenthesis of the column list. *)
Theorem getBulkInsertSql_options (T : TYPE) (tbl : string)
    (connectionOptions : ConnectionOptions) (calls : list Call) :
  let columnList this :=
    String.append
      (bulkInsertColumns 0 (columns this)
         (String.append "insert bulk " (String.append tbl "("))) ")" in
  (exists this0,
     constructor tbl connectionOptions
       {| o_checkConstraints := JsUndefined; o_fireTriggers := JsBool true;
          o_keepNulls := JsUndefined; o_lockTable := JsBool true |}
     = Return this0
     /\ let this := afterAll T calls this0 in
        getOptionsSql this = " WITH (FIRE_TRIGGERS,TABLOCK)"
        /\ getBulkInsertSql this
           = String.append (columnList this) " WITH (FIRE_TRIGGERS,TABLOCK)")
  /\ (exists this0,
        constructor tbl connectionOptions
          {| o_checkConstraints := JsBool false; o_fireTriggers := JsBool false;
             o_keepNulls := JsBool false; o_lockTable := JsBool false |}
        = Return this0
        /\ let this := afterAll T calls this0 in
           getOptionsSql this = ""
           /\ getBulkInsertSql this = String.append (columnList this) "").
Proof.
  intros columnList. split; eexists; (split; [reflexivity|]); cbv zeta;
    match goal with
    | |- context [afterAll T calls ?s] =>
        destruct (afterAll_settings T calls s) as (Ht & Hb & _);
        set (this := afterAll T calls s) in *
    end;
    unfold getBulkInsertSql, columnList; rewrite getOptionsSql_names, Hb, Ht;
    split; reflexivity.
Qed.

Lemma isBoolean_default v :
  isBoolean (defaultJs (JsBool false) v) = negb (suppliedNonBoolean v).
Proof. by destruct v. Qed.

Lemma asBool_default v : asBool (defaultJs (JsBool false) v) = asBool v.
Proof. by destruct v. Qed.

(** C8. Construction throws a [TypeError] naming the field when one of the
    four flags was supplied with a value that is not a boolean. Otherwise
    it returns an instance whose bulk options are the four flags, each
    [false] when absent and the supplied boolean otherwise; nothing else of
    the new instance depends on them. *)
Theorem constructor_options (tbl : string)
    (connectionOptions : ConnectionOptions) (o : Options) :
  let supplied :=
    [o_checkConstraints o; o_fireTriggers o; o_keepNulls o; o_lockTable o] in
  (existsb suppliedNonBoolean supplied = true ->
     exists field,
       In field ["checkConstraints"; "fireTriggers"; "keepNulls"; "lockTable"]
       /\ constructor tbl connectionOptions o
          = Throw (TypeError (mustBeBoolean field)))
  /\ (existsb suppliedNonBoolean supplied = false ->
        constructor tbl connectionOptions o
        = Return
            {| error := None; canceled := false; timeout := None;
               table := tbl; options := connectionOptions;
               columns := []; columnsByName := emptyIndex;
               firstRowWritten := false;
               rowsData := newWritableTrackingBuffer 1024 true;
               bulkOptions :=
                 {| checkConstraints := asBool (o_checkConstraints o);
                    fireTriggers := asBool (o_fireTriggers o);
                    keepNulls := asBool (o_keepNulls o);
                    lockTable := asBool (o_lockTable o) |} |})
  /\ asBool JsUndefined = false
  /\ (forall b, asBool (JsBool b) = b)
  /\ (forall v, suppliedNonBoolean v = true <->
                v <> JsUndefined /\ typeof v <> "boolean").
Proof.
  intros supplied. subst supplied. unfold constructor.
  rewrite !isBoolean_default, !asBool_default, !negb_involutive.
  cbn [existsb]. rewrite !orb_false_r.
  repeat apply conj; try reflexivity.
  - destruct (suppliedNonBoolean (o_checkConstraints o));
      [intros _; eexists; split; [|reflexivity]; simpl; tauto|].
    destruct (suppliedNonBoolean (o_fireTriggers o));
      [intros _; eexists; split; [|reflexivity]; simpl; tauto|].
    destruct (suppliedNonBoolean (o_keepNulls o));
      [intros _; eexists; split; [|reflexivity]; simpl; tauto|].
    destruct (suppliedNonBoolean (o_lockTable o));
      [intros _; eexists; split; [|reflexivity]; simpl; tauto|].
    discriminate.
  - destruct (suppliedNonBoolean (o_checkConstraints o)); [discriminate|].
    destruct (suppliedNonBoolean (o_fireTriggers o)); [discriminate|].
    destruct (suppliedNonBoolean (o_keepNulls o)); [discriminate|].
    destruct (suppliedNonBoolean (o_lockTable o)); [discriminate|].
    reflexivity.
  - intros v; destruct v; simpl; split; intros H;
      try discriminate; try (split; discriminate);
      destruct H as [H1 H2]; congruence.
Qed.

(** ** The column registry and the flags *)

(** A resolution step changes neither the name nor the nullability. *)
Lemma resolveStep_keeps (b : bool) get set resolve (c c' : ColumnFields) :
  (forall v c0, name (set v c0) = name c0
                /\ nullable (set v c0) = nullable c0) ->
  (if b then resolveWith get set resolve c else Return c) = Return c' ->
  name c' = name c /\ nullable c' = nullable c.
Proof.
  intros Hset. unfold resolveWith.
  destruct b; [destruct (get c); [|destruct resolve as [f|];
    [destruct (f c) as [v|e]|]]|];
    intros H; try discriminate; injection H as <-; auto.
Qed.

(** A successful [addColumn] appends one column; its [nullable] field is
    the option given, or [true] when the option was omitted. *)
Lemma addColumn_pushes nm ty o this this' :
  addColumn nm ty o this = (Return tt, this') ->
  exists column,
    this' = push_column nm {| type := ty; fields := column |} this
    /\ name column = nm
    /\ nullable column = Some (default true (co_nullable o))
    /\ firstRowWritten this = false.
Proof.
  unfold addColumn. destruct (firstRowWritten this) eqn:Hlatch; [discriminate|].
  match goal with
  | |- context [if Z.land _ _ =? _ then ?r else _] =>
      destruct (if Z.land (id ty) 48 =? 32 then r else _) as [c1|e] eqn:E1;
        [|discriminate]
  end.
  destruct (if hasPrecision ty then _ else _) as [c2|e] eqn:E2; [|discriminate].
  destruct (if hasScale ty then _ else _) as [c3|e] eqn:E3; [|discriminate].
  intros H. injection H as <-.
  apply resolveStep_keeps in E1 as [N1 U1]; [|by intros].
  apply resolveStep_keeps in E2 as [N2 U2]; [|by intros].
  apply resolveStep_keeps in E3 as [N3 U3]; [|by intros].
  cbn [name nullable] in N1, U1.
  exists c3. split; [reflexivity|]. repeat split; congruence.
Qed.

Lemma columnFlags_cases opts c :
  columnFlags opts c =
    match nullable (fields c) with
    | Some true => 5
    | Some false => 4
    | None => if js_ge (tdsVersion opts) "7_2" then 32772 else 4
    end.
Proof.
  unfold columnFlags.
  destruct (nullable (fields c)) as [[]|]; reflexivity.
Qed.

(** C1, as the code has it. The two flag bytes [getColMetaData] emits for a
    column registered by [addColumn] always carry the updateable
    (read/write) bit. With [nullable = true], and also with [nullable]
    omitted, since the option then defaults to [true], the nullable bit is
    set and the nullable-unknown bit is clear, on every protocol version.
    With [nullable = false] neither bit is set. The nullable-unknown bit is
    emitted, with the nullable bit clear, only for a column record whose
    [nullable] field is [undefined] on a version from 7_2 on; [addColumn]
    creates no such record. *)
Theorem columnFlags_registered (T : TYPE) (this this' : BulkLoad)
    (nm : string) (ty : DataType) (o : ColumnOptions) :
  addColumn nm ty o this = (Return tt, this') ->
  exists c,
    columns this' = columns this ++ [c]
    /\ nullable (fields c) = Some (default true (co_nullable o))
    /\ match getColMetaData T this' with
       | Return metaData =>
           metaData
           = uint8 (COLMETADATA T)
             ++ uint16LE (Z.of_nat (List.length (columns this')))
             ++ flat_map (columnMetaData (options this')) (columns this)
             ++ (if js_lt (tdsVersion (options this')) "7_2"
                 then uint16LE 0 else uint32LE 0)
             ++ uint16LE (columnFlags (options this') c)
             ++ typeInfo (options this') c
             ++ uint8 (Z.of_nat (String.length nm)) ++ ucs2 nm
       | Throw e =>
           exists c', In c' (columns this')
                      /\ typeInfoThrown (options this') c' = Some e
       end
    /\ hasFlag (columnFlags (options this') c) FLAGS.updateableReadWrite = true
    /\ (co_nullable o = Some true \/ co_nullable o = None ->
        hasFlag (columnFlags (options this') c) FLAGS.nullable = true
        /\ hasFlag (columnFlags (options this') c) FLAGS.nullableUnknown = false)
    /\ (co_nullable o = Some false ->
        hasFlag (columnFlags (options this') c) FLAGS.nullable = false
        /\ hasFlag (columnFlags (options this') c) FLAGS.nullableUnknown = false)
    /\ (forall opts c',
          nullable (fields c') = None ->
          hasFlag (columnFlags opts c') FLAGS.updateableReadWrite = true
          /\ hasFlag (columnFlags opts c') FLAGS.nullable = false
          /\ hasFlag (columnFlags opts c') FLAGS.nullableUnknown
             = js_ge (tdsVersion opts) "7_2")
    /\ ((forall c', In c' (columns this') ->
                    typeInfoThrown (options this') c' = None) ->
        exists metaData, getColMetaData T this' = Return metaData).
Proof.
  intros H. destruct (addColumn_pushes _ _ _ _ _ H) as (column & -> & Hnm & Hn & _).
  exists {| type := ty; fields := column |}.
  split; [reflexivity|]. split; [exact Hn|]. split.
  { rewrite getColMetaData_outcome.
    destruct (firstTypeInfoThrown _ _) eqn:Hthrown;
      [by apply firstTypeInfoThrown_Some|].
    unfold metaDataBytes. cbn [columns options push_column].
    rewrite flat_map_app. cbn [flat_map]. unfold columnMetaData at 2.
    cbn [type fields]. rewrite Hnm, app_nil_r, <- ?app_assoc. reflexivity. }
  rewrite columnFlags_cases. cbn [fields]. rewrite Hn.
  repeat apply conj.
  - by destruct (default true (co_nullable o)).
  - by intros [-> | ->].
  - by intros ->.
  - intros opts c' Hc'. rewrite columnFlags_cases, Hc'.
    by destruct (js_ge _ _).
  - intros Hinfo. eexists. by apply getColMetaData_returns.
Qed.

(** The claim of C1 at a concrete input: the column [a] is registered on
    version 7_4 with no [nullable] option. *)
Lemma columnFlags_registered_witness :
  exists c,
    columns (snd (addColumn "a" Samples.Int Samples.noColumnOptions
                    (Samples.fresh "7_4"))) = [c]
    /\ hasFlag (columnFlags (Samples.tds "7_4") c) FLAGS.nullable = true
    /\ hasFlag (columnFlags (Samples.tds "7_4") c) FLAGS.nullableUnknown = false.
Proof.
  destruct (columnFlags_registered Samples.TOKEN_TYPE (Samples.fresh "7_4") _
              "a" Samples.Int Samples.noColumnOptions eq_refl)
    as (c & Hc & _ & _ & _ & Hyes & _).
  exists c. split; [exact Hc|]. apply Hyes. right. reflexivity.
Defined.

(** C1 as stated fails: a column registered with [nullable] omitted on
    version 7_4 has the nullable bit set and the nullable-unknown bit
    clear. *)
Lemma omittedNullable_counterexample :
  ~ omittedNullableIsUnknown (Samples.fresh "7_4") "a" Samples.Int
      Samples.noColumnOptions.
Proof.
  intros H.
  destruct (H eq_refl eq_refl _ _ eq_refl eq_refl) as [Hunknown _].
  vm_compute in Hunknown. discriminate.
Qed.

(** ** The row buffer *)

Lemma writeColumns_appends valueOf opts i cols buf :
  exists bytes,
    contents (snd (writeColumns valueOf opts i cols buf)) = contents buf ++ bytes.
Proof.
  revert i buf. induction cols as [|c cols IH]; intros i buf; simpl.
  - exists []. by rewrite app_nil_r.
  - destruct (writeParameterData _ _ _) as [bytes [e|]]; simpl.
    + exists bytes. apply contents_write.
    + destruct (IH (S i) (write bytes buf)) as [more ->].
      exists (bytes ++ more). by rewrite contents_write, app_assoc.
Qed.

Lemma writeColumns_ext f g opts i cols buf :
  (forall j c, f j c = g j c) ->
  writeColumns f opts i cols buf = writeColumns g opts i cols buf.
Proof.
  intros Hfg. revert i buf. induction cols as [|c cols IH]; intros i buf; simpl.
  - reflexivity.
  - rewrite Hfg. destruct (writeParameterData _ _ _) as [bytes [e|]]; auto.
Qed.

(** Reading the looked-up values by position gives each column its own. *)
Lemma writeColumns_positional (f : Column -> JsValue) opts pre cols buf :
  writeColumns (fun i _ => nth i (pre ++ map f cols) JsUndefined) opts
    (List.length pre) cols buf
  = writeColumns (fun _ c => f c) opts (List.length pre) cols buf.
Proof.
  revert pre buf. induction cols as [|c cols IH]; intros pre buf.
  - reflexivity.
  - cbn [writeColumns map]. rewrite nth_middle.
    destruct (writeParameterData _ _ _) as [bytes [e|]]; [reflexivity|].
    specialize (IH (pre ++ [f c]) (write bytes buf)).
    rewrite List.length_app, Nat.add_1_r, <- app_assoc in IH. exact IH.
Qed.

Lemma writeColumns_looked_up (f : Column -> JsValue) opts cols buf :
  writeColumns (fun i _ => nth i (map f cols) JsUndefined) opts 0 cols buf
  = writeColumns (fun _ c => f c) opts 0 cols buf.
Proof. exact (writeColumns_positional f opts [] cols buf). Qed.

(** [addRow] is [writeRow] on the values its disambiguation selects. *)
Lemma addRow_writeRow T input this :
  addRow T input this =
    if instanceofArray (chooseRow input)
    then writeRow T (fun i _ => getIndex (chooseRow input) i) this
    else writeRow T (fun _ c => getProp (chooseRow input) (objName (fields c)))
           this.
Proof. unfold addRow, writeRow. by destruct (instanceofArray _). Qed.

Lemma writeRow_effect T valueOf this :
  exists bytes buf,
    snd (writeRow T valueOf this)
    = set_rowsData buf (set_firstRowWritten true this)
    /\ contents buf = contents (rowsData this) ++ uint8 (ROW T) ++ bytes.
Proof.
  unfold writeRow. cbn [rowsData set_rowsData set_firstRowWritten options columns].
  match goal with
  | |- context [writeColumns ?f ?o ?i ?cs ?b] =>
      destruct (writeColumns_appends f o i cs b) as [bytes Hb];
      destruct (writeColumns f o i cs b) as [r buf]
  end.
  exists bytes, buf. split; [reflexivity|].
  simpl in Hb. rewrite Hb. unfold writeUInt8.
  by rewrite contents_write, <- app_assoc.
Qed.

(** Whatever its outcome, [addRow] sets the latch and appends the row
    marker and then the bytes the descriptors wrote; nothing else
    changes. *)
Lemma addRow_effect T input this :
  exists bytes buf,
    snd (addRow T input this)
    = set_rowsData buf (set_firstRowWritten true this)
    /\ contents buf = contents (rowsData this) ++ uint8 (ROW T) ++ bytes.
Proof.
  rewrite addRow_writeRow.
  destruct (instanceofArray _); apply writeRow_effect.
Qed.

Lemma chooseRow_cases input :
  chooseRow input =
    match input with
    | [JsObject props] => JsObject props
    | [JsArray elems] => JsArray elems
    | _ => JsArray input
    end.
Proof.
  unfold chooseRow. destruct input as [|v [|v' rest]].
  - reflexivity.
  - destruct v as [| |[]|z| |s| | |]; try reflexivity.
    + simpl. by destruct (z =? 0).
    + simpl. by destruct (String.eqb s "").
  - assert (H : (1 <? Z.of_nat (List.length (v :: v' :: rest))) = true)
      by (apply Z.ltb_lt; simpl List.length; lia).
    rewrite H. by destruct v.
Qed.

Lemma addRow_valueFor T input this :
  addRow T input this = writeRow T (valueFor input) this.
Proof.
  rewrite addRow_writeRow, chooseRow_cases.
  destruct input as [|v [|v' rest]]; try reflexivity; by destruct v.
Qed.

(** The column loop, read as a whole: while the descriptors return, the
    buffer grows by their bytes in registry order. *)
Lemma writeColumns_all_return valueOf opts i cols buf :
  (forall k c, cols !! k = Some c ->
               thrown opts c (valueOf (i + k)%nat c) = None) ->
  fst (writeColumns valueOf opts i cols buf) = Return tt
  /\ contents (snd (writeColumns valueOf opts i cols buf))
     = contents buf
       ++ concat (imap (fun k c => encoded opts c (valueOf (i + k)%nat c)) cols).
Proof.
  revert i buf. induction cols as [|c cols IH]; intros i buf H.
  - simpl. by rewrite app_nil_r.
  - cbn [writeColumns].
    pose proof (H 0%nat c eq_refl) as H0. unfold thrown, parameterOf in H0.
    rewrite Nat.add_0_r in H0.
    rewrite imap_cons. cbn [concat]. unfold encoded at 1, parameterOf.
    rewrite Nat.add_0_r.
    destruct (writeParameterData _ _ _) as [bytes thr]. cbn [snd] in H0.
    subst thr. cbn [fst].
    destruct (IH (S i) (write bytes buf)) as [Hr Hc].
    { intros k c' Hk. rewrite Nat.add_succ_l, <- Nat.add_succ_r.
      by apply (H (S k)). }
    split; [exact Hr|]. rewrite Hc, contents_write, <- app_assoc.
    do 3 f_equal. apply imap_ext. intros k c' _. simpl.
    by rewrite Nat.add_succ_r.
Qed.

(** The loop stops at the first descriptor that throws: its bytes are the
    last ones written and its exception is the outcome. *)
Lemma writeColumns_first_throw valueOf opts i cols buf k ck e :
  cols !! k = Some ck ->
  thrown opts ck (valueOf (i + k)%nat ck) = Some e ->
  (forall j c, (j < k)%nat -> cols !! j = Some c ->
               thrown opts c (valueOf (i + j)%nat c) = None) ->
  fst (writeColumns valueOf opts i cols buf) = Throw e
  /\ contents (snd (writeColumns valueOf opts i cols buf))
     = contents buf
       ++ concat (imap (fun j c => encoded opts c (valueOf (i + j)%nat c))
                    (take (S k) cols)).
Proof.
  revert i buf k. induction cols as [|c cols IH]; intros i buf k Hk He Hbefore.
  - discriminate.
  - cbn [writeColumns]. rewrite firstn_cons, imap_cons. cbn [concat].
    unfold encoded at 1, parameterOf. rewrite Nat.add_0_r.
    destruct k as [|k].
    + injection Hk as <-. unfold thrown, parameterOf in He.
      rewrite Nat.add_0_r in He.
      destruct (writeParameterData _ _ _) as [bytes thr]. cbn [snd] in He.
      subst thr. cbn [fst snd take imap concat].
      by rewrite contents_write, app_nil_r.
    + pose proof (Hbefore 0%nat c ltac:(lia) eq_refl) as H0.
      unfold thrown, parameterOf in H0. rewrite Nat.add_0_r in H0.
      destruct (writeParameterData _ _ _) as [bytes thr]. cbn [snd] in H0.
      subst thr. cbn [fst].
      destruct (IH (S i) (write bytes buf) k) as [Hr Hc].
      { exact Hk. }
      { by rewrite Nat.add_succ_l, <- Nat.add_succ_r. }
      { intros j c' Hj Hc'. rewrite Nat.add_succ_l, <- Nat.add_succ_r.
        apply (Hbefore (S j)); [lia | exact Hc']. }
      split; [exact Hr|]. rewrite Hc, contents_write, <- app_assoc.
      do 3 f_equal. apply imap_ext. intros j c' _. simpl.
      by rewrite Nat.add_succ_r.
Qed.

Lemma writeRow_unfold T valueOf this :
  writeRow T valueOf this =
    let this1 :=
      set_rowsData (writeUInt8 (ROW T) (rowsData this))
        (set_firstRowWritten true this) in
    let r :=
      writeColumns valueOf (options this) 0 (columns this)
        (writeUInt8 (ROW T) (rowsData this)) in
    (fst r, set_rowsData (snd r) this1).
Proof.
  unfold writeRow.
  cbn [rowsData set_rowsData set_firstRowWritten options columns].
  by destruct (writeColumns _ _ _ _ _).
Qed.

(** C2, as the code has it. When the descriptor of a column throws during
    [addRow], the call throws that exception, and the row marker and every
    byte written before the throw (the bytes of the columns before it and
    what the throwing descriptor wrote) stay in the row buffer; the
    registry is frozen and unchanged. The instance goes on: a later
    [addRow] appends its row after those bytes, and [getPayload] returns a
    payload that contains them between the metadata and the completion
    token. *)
Theorem failed_addRow_keeps_bytes (T : TYPE) (this : BulkLoad)
    (input : list JsValue) (k : nat) (ck : Column) (e : Exception) :
  columns this !! k = Some ck ->
  thrown (options this) ck (valueFor input k ck) = Some e ->
  (forall j c, (j < k)%nat -> columns this !! j = Some c ->
               thrown (options this) c (valueFor input j c) = None) ->
  let failed := snd (addRow T input this) in
  let kept :=
    uint8 (ROW T)
    ++ concat (imap (fun i c => encoded (options this) c (valueFor input i c))
                 (take (S k) (columns this))) in
  fst (addRow T input this) = Throw e
  /\ contents (rowsData failed) = contents (rowsData this) ++ kept
  /\ firstRowWritten failed = true
  /\ columns failed = columns this
  /\ (forall input', exists more,
        contents (rowsData (snd (addRow T input' failed)))
        = contents (rowsData this) ++ kept ++ uint8 (ROW T) ++ more)
  /\ (forall input',
        (forall i c, columns this !! i = Some c ->
                     thrown (options this) c (valueFor input' i c) = None) ->
        fst (addRow T input' failed) = Return tt
        /\ contents (rowsData (snd (addRow T input' failed)))
           = contents (rowsData this) ++ kept ++ uint8 (ROW T)
             ++ concat (imap (fun i c =>
                                encoded (options this) c (valueFor input' i c))
                          (columns this)))
  /\ match getColMetaData T failed with
     | Return metaData =>
         exists payload this'',
           getPayload T failed = (Return payload, this'')
           /\ fst (data payload)
              = metaData ++ contents (rowsData this) ++ kept
                ++ fst (data (doneToken T (options this)))
     | Throw e' => getPayload T failed = (Throw e', failed)
     end
  /\ ((forall c, In c (columns this) ->
                 typeInfoThrown (options this) c = None) ->
      exists payload this'',
        getPayload T failed = (Return payload, this'')
        /\ fst (data payload)
           = metaDataBytes T this ++ contents (rowsData this) ++ kept
             ++ fst (data (doneToken T (options this)))).
Proof.
  intros Hk He Hbefore failed kept.
  destruct (writeColumns_first_throw (valueFor input) (options this) 0
              (columns this) (writeUInt8 (ROW T) (rowsData this)) k ck e
              Hk He Hbefore) as [Hr Hc].
  assert (Hfailed : failed
                    = set_rowsData
                        (snd (writeColumns (valueFor input) (options this) 0
                                (columns this)
                                (writeUInt8 (ROW T) (rowsData this))))
                        (set_rowsData (writeUInt8 (ROW T) (rowsData this))
                           (set_firstRowWritten true this))).
  { subst failed. by rewrite addRow_valueFor, writeRow_unfold. }
  assert (Hbytes : contents (rowsData failed)
                   = contents (rowsData this) ++ kept).
  { rewrite Hfailed. cbn [rowsData set_rowsData]. rewrite Hc.
    unfold writeUInt8. by rewrite contents_write, <- app_assoc. }
  split. { by rewrite addRow_valueFor, writeRow_unfold. }
  split; [exact Hbytes|].
  split. { by rewrite Hfailed. }
  split. { by rewrite Hfailed. }
  split.
  { intros input'.
    destruct (addRow_effect T input' failed) as (more & buf' & -> & Hc').
    exists more. cbn [rowsData set_rowsData].
    by rewrite Hc', Hbytes, <- !app_assoc. }
  split.
  { intros input' Hreturn.
    rewrite addRow_valueFor, writeRow_unfold. cbv zeta. cbn [fst snd].
    cbn [rowsData set_rowsData].
    assert (Hcols : columns failed = columns this) by (by rewrite Hfailed).
    assert (Hopts : options failed = options this) by (by rewrite Hfailed).
    rewrite Hcols, Hopts.
    destruct (writeColumns_all_return (valueFor input') (options this) 0
                (columns this) (writeUInt8 (ROW T) (rowsData failed)) Hreturn)
      as [Hr' Hc'].
    split; [exact Hr'|]. rewrite Hc'. unfold writeUInt8.
    by rewrite contents_write, Hbytes, <- !app_assoc. }
  assert (Hopts : options failed = options this) by (by rewrite Hfailed).
  assert (Hpayload : forall metaData,
            getColMetaData T failed = Return metaData ->
            exists payload this'',
              getPayload T failed = (Return payload, this'')
              /\ fst (data payload)
                 = metaData ++ contents (rowsData this) ++ kept
                   ++ fst (data (doneToken T (options this)))).
  { intros metaData Hmeta. rewrite getPayload_eq, Hmeta.
    eexists _, _. split; [reflexivity|]. cbv zeta.
    rewrite !data_contents. unfold contents at 1.
    cbn [compositeBuffer buffer app]. rewrite Hbytes.
    by rewrite Hopts, <- !app_assoc. }
  split.
  - destruct (getColMetaData T failed) as [metaData|e'] eqn:Hmeta.
    + by apply Hpayload.
    + by rewrite getPayload_eq, Hmeta.
  - intros Hinfo. apply Hpayload.
    rewrite <- (getColMetaData_returns T this Hinfo).
    apply getColMetaData_ext; [by rewrite Hfailed | exact Hopts].
Qed.

(** The amended C2 at a concrete input: two [Int] columns, and a row whose
    second value is a string. *)
Lemma failed_addRow_keeps_bytes_witness :
  fst (addRow Samples.TOKEN_TYPE [JsNumber 1; JsString "x"]
         (Samples.twoColumns "7_4"))
  = Throw (EncodingError "Invalid number.")
  /\ contents (rowsData (snd (addRow Samples.TOKEN_TYPE
                                 [JsNumber 1; JsString "x"]
                                 (Samples.twoColumns "7_4"))))
     = [] ++ [0xD1] ++ [4; 1; 0; 0; 0] ++ [4].
Proof.
  destruct (failed_addRow_keeps_bytes Samples.TOKEN_TYPE
              (Samples.twoColumns "7_4") [JsNumber 1; JsString "x"]
              1%nat
              {| type := Samples.Int;
                 fields :=
                   {| name := "b"; value := JsNull; output := false;
                      length := Some 4; precision := None; scale := None;
                      objName := "b"; nullable := Some true |} |}
              (EncodingError "Invalid number.") eq_refl eq_refl)
    as (Hthrow & Hkept & _).
  { intros [|j] c Hj Hc; [by injection Hc as <- | lia]. }
  split; [exact Hthrow | exact Hkept].
Defined.

(** C2 as stated fails: after the row [(1, 'x')] fails on its second
    column, the row buffer holds the marker, the first value and the length
    byte of the second, the next [addRow] returns and so does
    [getPayload]. *)
Lemma failedRow_counterexample :
  ~ failedRowDiscardedOrRefused Samples.TOKEN_TYPE (Samples.twoColumns "7_4")
      [JsNumber 1; JsString "x"].
Proof.
  intros H.
  destruct (H (EncodingError "Invalid number.") _ eq_refl) as [Hd | [Hr | Hp]].
  - vm_compute in Hd. discriminate.
  - specialize (Hr [JsNumber 2; JsNumber 3]). vm_compute in Hr. discriminate.
  - vm_compute in Hp. discriminate.
Qed.

(** The bytes in question: the failed row stays in front of the next one,
    and in the payload. *)
Example failedRow_bytes :
  let failed :=
    snd (addRow Samples.TOKEN_TYPE [JsNumber 1; JsString "x"]
           (Samples.twoColumns "7_4")) in
  let next := addRow Samples.TOKEN_TYPE [JsNumber 2; JsNumber 3] failed in
  contents (rowsData failed) = [0xD1; 4; 1; 0; 0; 0; 4]
  /\ fst next = Return tt
  /\ contents (rowsData (snd next))
     = [0xD1; 4; 1; 0; 0; 0; 4] ++ [0xD1; 4; 2; 0; 0; 0; 4; 3; 0; 0; 0].
Proof. vm_compute. auto. Qed.

(** C3. Once [addRow] has been called, whether it returned or threw, and
    whatever calls followed, [addColumn] throws the state error and leaves
    the instance, so the registry and the row buffer, as it was. *)
Theorem addColumn_after_addRow (T : TYPE) (this : BulkLoad)
    (input : list JsValue) (calls : list Call)
    (nm : string) (ty : DataType) (o : ColumnOptions) :
  let this' := afterAll T calls (snd (addRow T input this)) in
  addColumn nm ty o this' = (Throw StateError, this')
  /\ columns (snd (addColumn nm ty o this')) = columns this'
  /\ rowsData (snd (addColumn nm ty o this')) = rowsData this'.
Proof.
  intros this'.
  assert (H : addColumn nm ty o this' = (Throw StateError, this')).
  { apply addColumn_frozen, afterAll_latch, addRow_latch. }
  rewrite H. auto.
Qed.

(** C9. [addRow] leaves the latch set in every outcome: also when the
    descriptor of the first column throws, the instance it leaves is the
    one with the latch set and the row marker written, and every
    [addColumn] on it throws the state error. No call resets the latch. *)
Theorem addRow_sets_latch (T : TYPE) (this : BulkLoad) (input : list JsValue) :
  firstRowWritten (snd (addRow T input this)) = true
  /\ (exists bytes buf,
        snd (addRow T input this)
        = set_rowsData buf (set_firstRowWritten true this)
        /\ contents buf = contents (rowsData this) ++ uint8 (ROW T) ++ bytes)
  /\ (forall nm ty o,
        addColumn nm ty o (snd (addRow T input this))
        = (Throw StateError, snd (addRow T input this)))
  /\ (forall call s,
        firstRowWritten s = true -> firstRowWritten (after T call s) = true)
  /\ (forall calls,
        firstRowWritten (afterAll T calls (snd (addRow T input this))) = true).
Proof.
  repeat apply conj.
  - apply addRow_latch.
  - apply addRow_effect.
  - intros. apply addColumn_frozen, addRow_latch.
  - intros. by apply after_latch.
  - intros. apply afterAll_latch, addRow_latch.
Qed.

(** The latch at a throw in the first column: nothing but the marker and
    the length byte is written, and the registry is frozen. *)
Example addRow_throw_first_column :
  let r := addRow Samples.TOKEN_TYPE [JsString "x"] (Samples.twoColumns "7_1") in
  fst r = Throw (EncodingError "Invalid number.")
  /\ firstRowWritten (snd r) = true
  /\ contents (rowsData (snd r)) = [0xD1; 4]
  /\ fst (addColumn "c" Samples.Int Samples.noColumnOptions (snd r))
     = Throw StateError.
Proof. vm_compute. auto. Qed.

(** ** Positional and by-name rows *)

(** C10. A single falsy argument, [null] included although its type is
    ['object'], is the positional row of that one value; a single array is
    the positional row of its elements; a single object that is not an
    array is read by name, each column taking [row[objName]]: the row's own
    property, else what [Object.prototype] gives under that name (a
    function for [toString] and the like) and [undefined] otherwise; every
    other argument list is a positional row. Reading by name is the same
    as the positional row of the looked-up values, and the values so
    selected are the ones the descriptors encode. *)
Theorem addRow_disambiguation (T : TYPE) (this : BulkLoad) :
  (forall v, truthy v = false ->
     addRow T [v] this = writeRow T (fun i _ => nth i [v] JsUndefined) this)
  /\ (truthy JsNull = false /\ typeof JsNull = "object"
      /\ truthy (JsNumber 0) = false /\ truthy (JsString "") = false
      /\ truthy (JsBool false) = false)
  /\ (forall elems,
        addRow T [JsArray elems] this
        = writeRow T (fun i _ => nth i elems JsUndefined) this)
  /\ (forall props,
        addRow T [JsObject props] this
        = writeRow T
            (fun _ c => getProp (JsObject props) (objName (fields c))) this)
  /\ (forall input,
        (forall props, input <> [JsObject props]) ->
        addRow T input this
        = writeRow T
            (fun i _ =>
               nth i (match input with [JsArray elems] => elems | _ => input end)
                 JsUndefined) this)
  /\ (forall props,
        writeRow T
          (fun _ c => getProp (JsObject props) (objName (fields c))) this
        = writeRow T
            (fun i _ =>
               nth i (map (fun c => getProp (JsObject props)
                                      (objName (fields c)))
                        (columns this)) JsUndefined) this)
  /\ (forall props key,
        getProp (JsObject props) key
        = match ownProperty key props with
          | Some v => v
          | None => inherited key
          end)
  /\ (getProp (JsObject []) "toString" = JsFunction "toString"
      /\ getProp (JsObject [("toString", JsNumber 1)]) "toString" = JsNumber 1
      /\ getProp (JsObject [("a", JsUndefined)]) "a" = JsUndefined
      /\ forall key,
           key <> "__proto__" ->
           ownProperty key objectPrototypeFunctions = None ->
           getProp (JsObject []) key = JsUndefined)
  /\ (forall input,
        (forall i c, columns this !! i = Some c ->
                     thrown (options this) c (valueFor input i c) = None) ->
        fst (addRow T input this) = Return tt
        /\ contents (rowsData (snd (addRow T input this)))
           = contents (rowsData this) ++ uint8 (ROW T)
             ++ concat (imap (fun i c =>
                                encoded (options this) c (valueFor input i c))
                          (columns this)))
  /\ (forall input i c,
        valueFor input i c
        = match input with
          | [JsObject props] => getProp (JsObject props) (objName (fields c))
          | [JsArray elems] => nth i elems JsUndefined
          | _ => nth i input JsUndefined
          end).
Proof.
  assert (Hother : forall input,
            (forall props, input <> [JsObject props]) ->
            addRow T input this
            = writeRow T
                (fun i _ =>
                   nth i (match input with [JsArray elems] => elems | _ => input end)
                     JsUndefined) this).
  { intros input Hno. rewrite addRow_writeRow, chooseRow_cases.
    destruct input as [|v [|v' rest]]; try reflexivity.
    - destruct v; try reflexivity. by destruct (Hno props).
    - by destruct v. }
  repeat apply conj; try reflexivity.
  - intros v Hv. rewrite Hother.
    + by destruct v.
    + intros props [= ->]. discriminate.
  - exact Hother.
  - intros props. unfold writeRow.
    cbn [rowsData set_rowsData set_firstRowWritten options columns].
    by rewrite (writeColumns_looked_up
                  (fun c => getProp (JsObject props) (objName (fields c)))).
  - intros key Hne Hown. unfold getProp, inherited. cbn [ownProperty].
    apply String.eqb_neq in Hne. by rewrite Hne, Hown.
  - intros input Hreturn.
    rewrite addRow_valueFor, writeRow_unfold. cbv zeta.
    cbn [fst snd rowsData set_rowsData].
    destruct (writeColumns_all_return (valueFor input) (options this) 0
                (columns this) (writeUInt8 (ROW T) (rowsData this)) Hreturn)
      as [Hr Hc].
    split; [exact Hr|]. rewrite Hc. unfold writeUInt8.
    by rewrite contents_write, <- app_assoc.
Qed.

(** A column whose [objName] is a name of [Object.prototype], and the row
    [{}]: the descriptor is handed a function and throws after the length
    byte. *)
Example addRow_inherited_property :
  let this :=
    snd (addColumn "toString" Samples.Int Samples.noColumnOptions
           (Samples.fresh "7_4")) in
  let r := addRow Samples.TOKEN_TYPE [JsObject []] this in
  fst r = Throw (EncodingError "Invalid number.")
  /\ contents (rowsData (snd r)) = [0xD1; 4]
  /\ fst (addRow Samples.TOKEN_TYPE [] this) = Return tt.
Proof. vm_compute. auto. Qed.

(** ** Worked examples *)

Example fresh_constructed v :
  constructor "t" (Samples.tds v) Samples.noOptions = Return (Samples.fresh v).
Proof. reflexivity. Qed.

(** Reading the index right after an assignment gives the column
    assigned, also under [__proto__], where the column became the
    prototype. *)
Lemma read_assign nm c index : read nm (assign nm c index) = ReadColumn c.
Proof.
  unfold read, assign.
  destruct (String.eqb nm "__proto__") eqn:E;
    destruct (own index !! nm) eqn:O; cbn [andb own prototype];
    rewrite ?lookup_insert_eq, ?O, ?E; reflexivity.
Qed.

(** An assignment under another name does not take a column away. *)
Lemma read_assign_other nm nm' c c' index :
  nm <> nm' ->
  read nm index = ReadColumn c ->
  read nm (assign nm' c' index) = ReadColumn c.
Proof.
  intros Hne. unfold read, assign.
  destruct (String.eqb nm' "__proto__" && _) eqn:E; cbn [own prototype].
  - apply andb_prop in E as [E _]. apply String.eqb_eq in E. subst nm'.
    destruct (own index !! nm); [done|].
    apply String.eqb_neq in Hne. rewrite Hne.
    destruct (prototype index); destruct (existsb _ _); try done;
      unfold readObjectPrototype; by destruct (ownProperty _ _).
  - by rewrite lookup_insert_ne.
Qed.

(** A registered column is the last of the registry and is indexed under
    its name. *)
Lemma addColumn_indexed nm ty o this this' :
  addColumn nm ty o this = (Return tt, this') ->
  exists c,
    last (columns this') = Some c
    /\ read nm (columnsByName this') = ReadColumn c
    /\ type c = ty /\ name (fields c) = nm.
Proof.
  intros H. destruct (addColumn_pushes _ _ _ _ _ H) as (column & -> & Hnm & _).
  exists {| type := ty; fields := column |}. simpl.
  rewrite last_snoc, read_assign. auto.
Qed.

(** One column [id] of type [Int], not nullable, and the row [[42]]: the
    payload on version 7_1 and on version 7_4. *)
Example payload_one_row :
  let load v :=
    snd (addRow Samples.TOKEN_TYPE [JsArray [JsNumber 42]]
           (snd (addColumn "id" Samples.Int (Samples.nullableOption false)
                   (Samples.fresh v)))) in
  let payload v :=
    match fst (getPayload Samples.TOKEN_TYPE (load v)) with
    | Return p => fst (data p)
    | Throw _ => []
    end in
  payload "7_1"
  = [0x81; 1; 0;  0; 0;  4; 0;  0x26; 4;  2; 105; 0; 100; 0;
     0xD1; 4; 42; 0; 0; 0;
     0xFD; 0; 0; 0; 0; 0; 0; 0; 0]
  /\ payload "7_4"
     = [0x81; 1; 0;  0; 0; 0; 0;  4; 0;  0x26; 4;  2; 105; 0; 100; 0;
        0xD1; 4; 42; 0; 0; 0;
        0xFD; 0; 0; 0; 0; 0; 0; 0; 0; 0; 0; 0; 0].
Proof. vm_compute. auto. Qed.

(** * Further properties of the class *)

(** ** Call histories *)

Lemma afterAll_invariant (P : BulkLoad -> Prop) T calls this :
  P this -> (forall c s, P s -> P (after T c s)) -> P (afterAll T calls this).
Proof.
  intros H0 Hstep. revert this H0.
  induction calls as [|c calls IH]; intros this H0; simpl; auto.
Qed.

Lemma afterAll_app T cs1 cs2 this :
  afterAll T (cs1 ++ cs2) this = afterAll T cs2 (afterAll T cs1 this).
Proof. unfold afterAll. apply fold_left_app. Qed.

(** A throwing [addColumn] leaves the instance as it was. *)
Lemma addColumn_throw_state nm ty o this e this' :
  addColumn nm ty o this = (Throw e, this') -> this' = this.
Proof.
  unfold addColumn. destruct (firstRowWritten this); [by intros [= _ <-]|].
  repeat match goal with
    | |- context [match ?x with Return _ => _ | Throw _ => _ end] =>
        destruct x
    end; intros H; try discriminate; by injection H as _ <-.
Qed.

(** What one call does to the registry: nothing, or one push by a
    successful [addColumn] on an instance that is not frozen. *)
Lemma after_registry T c this :
  (columns (after T c this) = columns this
   /\ columnsByName (after T c this) = columnsByName this)
  \/ exists nm ty o column,
       c = CallAddColumn nm ty o
       /\ firstRowWritten this = false
       /\ after T c this = push_column nm {| type := ty; fields := column |} this
       /\ name column = nm
       /\ nullable column = Some (default true (co_nullable o)).
Proof.
  destruct c; cbn [after]; auto.
  - destruct (addColumn nm ty o this) as [[[]|e] s] eqn:E; cbn [snd].
    + destruct (addColumn_pushes _ _ _ _ _ E) as (column & -> & Hnm & Hn & Hl).
      right. by exists nm, ty, o, column.
    + left. by rewrite (addColumn_throw_state _ _ _ _ _ _ E).
  - left. by destruct (addRow_state T input this) as [buf ->].
  - left. by destruct (getPayload_state T this) as (buf & -> & _).
Qed.

Lemma after_latch_eq T c this :
  firstRowWritten (after T c this) = firstRowWritten this || isAddRow c.
Proof.
  destruct c; cbn [after isAddRow]; rewrite ?orb_false_r; auto.
  - destruct (addColumn nm ty o this) as [[[]|e] s] eqn:E; cbn [snd].
    + by destruct (addColumn_pushes _ _ _ _ _ E) as (column & -> & _).
    + by rewrite (addColumn_throw_state _ _ _ _ _ _ E).
  - by rewrite addRow_latch, orb_true_r.
  - by destruct (getPayload_state T this) as (buf & -> & _).
Qed.

(** X1. The latch records exactly whether [addRow] was called: after any
    calls it is set if it was set before or one of the calls was an
    [addRow]; on a newly constructed instance it is set if and only if
    some call was an [addRow], whether that call returned or threw. *)
Theorem latch_records_addRow (T : TYPE) (calls : list Call) (this : BulkLoad)
    (tbl : string) (connectionOptions : ConnectionOptions) (o : Options) :
  firstRowWritten (afterAll T calls this)
  = firstRowWritten this || existsb isAddRow calls
  /\ match constructor tbl connectionOptions o with
     | Return this0 =>
         firstRowWritten (afterAll T calls this0) = existsb isAddRow calls
     | Throw _ => True
     end.
Proof.
  assert (H : forall s,
            firstRowWritten (afterAll T calls s)
            = firstRowWritten s || existsb isAddRow calls).
  { induction calls as [|c calls IH]; intros s; simpl.
    - by rewrite orb_false_r.
    - fold (afterAll T calls (after T c s)).
      by rewrite IH, after_latch_eq, orb_assoc. }
  split; [apply H|].
  destruct (constructor tbl connectionOptions o) as [this0|e] eqn:E; [|exact I].
  rewrite H. unfold constructor in E.
  repeat match type of E with
    | (if ?b then _ else _) = _ => destruct b; [discriminate|]
    end.
  by injection E as <-.
Qed.

Lemma after_frozen T c this :
  firstRowWritten this = true ->
  columns (after T c this) = columns this
  /\ columnsByName (after T c this) = columnsByName this.
Proof.
  intros Hl. destruct (after_registry T c this)
    as [H | (nm & ty & o & column & _ & Hf & _)]; [exact H | congruence].
Qed.

(** X2. Once [addRow] has been called the registry is frozen for good:
    whatever calls follow, the column list, the name index and the
    metadata token stay those of the instance [addRow] was called on. *)
Theorem registry_frozen_after_addRow (T : TYPE) (this : BulkLoad)
    (input : list JsValue) (calls : list Call) :
  let this' := afterAll T calls (snd (addRow T input this)) in
  columns this' = columns this
  /\ columnsByName this' = columnsByName this
  /\ getColMetaData T this' = getColMetaData T this.
Proof.
  intros this'. subst this'.
  assert (H : forall s,
            firstRowWritten s = true ->
            columns (afterAll T calls s) = columns s
            /\ columnsByName (afterAll T calls s) = columnsByName s).
  { induction calls as [|c calls IH]; intros s Hs; simpl; auto.
    fold (afterAll T calls (after T c s)).
    destruct (after_frozen T c s Hs) as [<- <-].
    apply IH. by apply after_latch. }
  destruct (H _ (addRow_latch T input this)) as [Hc Hn].
  destruct (addRow_state T input this) as [buf Hs].
  rewrite Hs in Hc, Hn |- *. cbn [columns columnsByName set_rowsData
    set_firstRowWritten] in Hc, Hn.
  split; [exact Hc|]. split; [exact Hn|].
  apply getColMetaData_ext; [exact Hc|].
  by destruct (afterAll_settings T calls
                 (set_rowsData buf (set_firstRowWritten true this)))
    as (_ & _ & ->).
Qed.

Lemma after_appends T c this :
  exists more,
    contents (rowsData (after T c this)) = contents (rowsData this) ++ more
    /\ (isAddRow c = false -> more = []).
Proof.
  destruct c; cbn [after isAddRow];
    try (exists []; by rewrite app_nil_r).
  - exists []. rewrite app_nil_r. split; [|done].
    destruct (addColumn nm ty o this) as [[[]|e] s] eqn:E; cbn [snd].
    + by destruct (addColumn_pushes _ _ _ _ _ E) as (column & -> & _).
    + by rewrite (addColumn_throw_state _ _ _ _ _ _ E).
  - destruct (addRow_effect T input this) as (bytes & buf & -> & Hc).
    eexists. split; [exact Hc | discriminate].
  - exists []. rewrite app_nil_r.
    destruct (getPayload_state T this) as (buf & -> & Hbuf).
    by split.
Qed.

(** X3. The row buffer is append-only: after any calls its bytes start
    with the bytes it held before, and when none of the calls is an
    [addRow] they are exactly those bytes. *)
Theorem rowsData_append_only (T : TYPE) (calls : list Call) (this : BulkLoad) :
  exists more,
    contents (rowsData (afterAll T calls this))
    = contents (rowsData this) ++ more
    /\ (existsb isAddRow calls = false -> more = []).
Proof.
  revert this. induction calls as [|c calls IH]; intros this; simpl.
  - exists []. by rewrite app_nil_r.
  - fold (afterAll T calls (after T c this)).
    destruct (IH (after T c this)) as (more2 & -> & H2).
    destruct (after_appends T c this) as (more1 & -> & H1).
    exists (more1 ++ more2). rewrite app_assoc. split; [reflexivity|].
    intros [Hc Hcs]%orb_false_elim. by rewrite H1, H2.
Qed.

(** ** The registry *)

Lemma constructor_fresh tbl connectionOptions o this0 :
  constructor tbl connectionOptions o = Return this0 ->
  columns this0 = [] /\ columnsByName this0 = emptyIndex
  /\ firstRowWritten this0 = false /\ table this0 = tbl
  /\ options this0 = connectionOptions
  /\ rowsData this0 = newWritableTrackingBuffer 1024 true.
Proof.
  unfold constructor. intros E.
  repeat match type of E with
    | (if ?b then _ else _) = _ => destruct b; [discriminate|]
    end.
  by injection E as <-.
Qed.




(** The index of a new instance, and after a column named [__proto__]. *)
Example columnsByName_prototype :
  read "toString" (columnsByName (Samples.fresh "7_4"))
  = ReadInherited (JsFunction "toString")
  /\ read "a" (columnsByName (Samples.fresh "7_4")) = ReadUndefined
  /\ exists c,
       columns (snd (addColumn "__proto__" Samples.Int Samples.noColumnOptions
                       (Samples.fresh "7_4"))) = [c]
       /\ own (columnsByName
                 (snd (addColumn "__proto__" Samples.Int
                         Samples.noColumnOptions (Samples.fresh "7_4"))))
          = ∅
       /\ read "__proto__"
            (columnsByName
               (snd (addColumn "__proto__" Samples.Int
                       Samples.noColumnOptions (Samples.fresh "7_4"))))
          = ReadColumn c
       /\ read "name"
            (columnsByName
               (snd (addColumn "__proto__" Samples.Int
                       Samples.noColumnOptions (Samples.fresh "7_4"))))
          = ReadField c "name".
Proof. repeat split. eexists. repeat split. Qed.

(** X5. On an instance built by the constructor and any calls, every
    column has a known nullability: its flags are 5 (nullable) or 4 (not
    nullable), the nullable-unknown bit is never emitted, and the
    table-creation text always carries [NULL] or [NOT NULL] for it. *)
Theorem registered_nullability_known (T : TYPE) (tbl : string)
    (connectionOptions : ConnectionOptions) (o : Options) (this0 : BulkLoad)
    (calls : list Call) (c : Column) :
  constructor tbl connectionOptions o = Return this0 ->
  In c (columns (afterAll T calls this0)) ->
  exists b,
    nullable (fields c) = Some b
    /\ columnFlags (options (afterAll T calls this0)) c = (if b then 5 else 4)
    /\ hasFlag (columnFlags (options (afterAll T calls this0)) c)
         FLAGS.nullableUnknown = false
    /\ nullability c = (if b then " NULL" else " NOT NULL").
Proof.
  intros E. destruct (constructor_fresh _ _ _ _ E) as (Hc & _).
  assert (H : forall c, In c (columns (afterAll T calls this0)) ->
                        exists b, nullable (fields c) = Some b).
  { apply (afterAll_invariant
             (fun s => forall c, In c (columns s) ->
                                 exists b, nullable (fields c) = Some b)).
    - rewrite Hc. intros ? [].
    - intros call s IH c0.
      destruct (after_registry T call s)
        as [[-> _] | (nm' & ty & o' & column & _ & _ & -> & _ & Hn)];
        [apply IH|].
      cbn [columns push_column]. rewrite in_app_iff.
      intros [Hin | [<- | []]]; [by apply IH | by eexists]. }
  intros Hin. destruct (H c Hin) as [b Hb]. exists b.
  rewrite columnFlags_cases. unfold nullability. rewrite Hb.
  by destruct b.
Qed.

Lemma registered_nullability_known_witness :
  exists b,
    nullable (fields {| type := Samples.Int;
                        fields :=
                          {| name := "a"; value := JsNull; output := false;
                             length := Some 4; precision := None;
                             scale := None; objName := "a";
                             nullable := Some true |} |}) = Some b
    /\ b = true.
Proof.
  destruct (registered_nullability_known Samples.TOKEN_TYPE "t"
              (Samples.tds "7_4") Samples.noOptions (Samples.fresh "7_4")
              [CallAddColumn "a" Samples.Int Samples.noColumnOptions]
              {| type := Samples.Int;
                 fields :=
                   {| name := "a"; value := JsNull; output := false;
                      length := Some 4; precision := None;
                      scale := None; objName := "a";
                      nullable := Some true |} |}
              eq_refl (or_introl eq_refl)) as (b & Hb & _).
  exists b. split; [exact Hb|]. simpl in Hb. congruence.
Defined.

(** What a resolution step does: nothing, or it stores what the resolver
    returned for a field that was [undefined]; it throws what the resolver
    throws. *)
Lemma resolveStep_returns (b : bool) get set resolve (c c' : ColumnFields) :
  (if b then resolveWith get set resolve c else Return c) = Return c' ->
  c' = c
  \/ (b = true /\ get c = None
      /\ exists f v, resolve = Some f /\ f c = Return v /\ c' = set v c).
Proof.
  unfold resolveWith.
  destruct b; [destruct (get c) eqn:G; [|destruct resolve as [f|];
    [destruct (f c) as [v|e] eqn:F|]]|];
    intros H; try discriminate; injection H as <-; auto.
  right. repeat split; auto. by exists f, v.
Qed.

Lemma resolveStep_throws (b : bool) get set resolve (c : ColumnFields) e :
  (if b then resolveWith get set resolve c else Return c) = Throw e ->
  b = true /\ get c = None /\ exists f, resolve = Some f /\ f c = Throw e.
Proof.
  unfold resolveWith.
  destruct b; [destruct (get c) eqn:G; [|destruct resolve as [f|];
    [destruct (f c) as [v|e'] eqn:F|]]|];
    intros H; try discriminate; injection H as <-.
  repeat split; auto. by exists f.
Qed.

(** X6. A failing [addColumn] changes nothing. It fails with the state
    error when the registry is frozen; otherwise the exception is the one
    a resolver of the type descriptor threw, for a field that was not
    given, and it is passed on as it is. *)
Theorem addColumn_failure (nm : string) (ty : DataType) (o : ColumnOptions)
    (this this' : BulkLoad) (e : Exception) :
  addColumn nm ty o this = (Throw e, this') ->
  this' = this
  /\ (firstRowWritten this = true -> e = StateError)
  /\ (firstRowWritten this = false ->
      exists f column,
        f column = Throw e /\ name column = nm
        /\ ((resolveLength ty = Some f /\ co_length o = None
             /\ Z.land (id ty) 0x30 = 0x20)
            \/ (resolvePrecision ty = Some f /\ co_precision o = None
                /\ hasPrecision ty = true)
            \/ (resolveScale ty = Some f /\ co_scale o = None
                /\ hasScale ty = true))).
Proof.
  intros H. split; [exact (addColumn_throw_state _ _ _ _ _ _ H)|].
  unfold addColumn in H. destruct (firstRowWritten this).
  { split; [intros _; by injection H as <- _ | discriminate]. }
  split; [discriminate|]. intros _.
  match type of H with
  | context [if Z.land _ _ =? _ then ?r else _] =>
      destruct (if Z.land (id ty) 48 =? 32 then r else _) as [c1|e1] eqn:E1
  end.
  2:{ injection H as <- _.
      apply resolveStep_throws in E1 as (Hb & Hg & f & Hf & Hthrow).
      exists f. eexists. split; [exact Hthrow|]. split; [reflexivity|].
      left. repeat split; auto. by apply Z.eqb_eq. }
  destruct (if hasPrecision ty then _ else _) as [c2|e2] eqn:E2.
  2:{ injection H as <- _.
      apply resolveStep_throws in E2 as (Hb & Hg & f & Hf & Hthrow).
      exists f, c1. split; [exact Hthrow|].
      apply resolveStep_returns in E1
        as [-> | (_ & _ & f1 & v1 & _ & _ & ->)];
        (split; [reflexivity|]); right; left; auto. }
  destruct (if hasScale ty then _ else _) as [c3|e3] eqn:E3; [discriminate|].
  injection H as <- _.
  apply resolveStep_throws in E3 as (Hb & Hg & f & Hf & Hthrow).
  exists f, c2. split; [exact Hthrow|].
  apply resolveStep_returns in E2
    as [-> | (_ & _ & f2 & v2 & _ & _ & ->)];
    apply resolveStep_returns in E1
      as [-> | (_ & _ & f1 & v1 & _ & _ & ->)];
    (split; [reflexivity|]); right; right; auto.
Qed.

Lemma addColumn_failure_witness :
  snd (addColumn "a" rejecting Samples.noColumnOptions (Samples.fresh "7_4"))
  = Samples.fresh "7_4".
Proof.
  exact (proj1 (addColumn_failure "a" rejecting Samples.noColumnOptions
                  (Samples.fresh "7_4") _ (EncodingError "no length")
                  eq_refl)).
Defined.

(** X7. What a successful [addColumn] stores. The name, a [null] value,
    [output] (default [false]) and [objName] (default: the name) are stored
    as given. A length, precision or scale that was given is stored
    untouched, whatever the descriptor's resolvers would say; one that was
    not given stays [undefined] unless the type is of the length category
    (or declares a precision, or a scale) and has the resolver. *)
Theorem addColumn_stores (nm : string) (ty : DataType) (o : ColumnOptions)
    (this this' : BulkLoad) :
  addColumn nm ty o this = (Return tt, this') ->
  exists c,
    columns this' = columns this ++ [c]
    /\ type c = ty
    /\ name (fields c) = nm
    /\ value (fields c) = JsNull
    /\ output (fields c) = default false (co_output o)
    /\ objName (fields c) = default nm (co_objName o)
    /\ (forall l, co_length o = Some l -> length (fields c) = Some l)
    /\ (forall p, co_precision o = Some p -> precision (fields c) = Some p)
    /\ (forall s, co_scale o = Some s -> scale (fields c) = Some s)
    /\ (Z.land (id ty) 0x30 <> 0x20 \/ resolveLength ty = None ->
        length (fields c) = co_length o)
    /\ (hasPrecision ty = false \/ resolvePrecision ty = None ->
        precision (fields c) = co_precision o)
    /\ (hasScale ty = false \/ resolveScale ty = None ->
        scale (fields c) = co_scale o)
    /\ rowsData this' = rowsData this
    /\ firstRowWritten this' = false.
Proof.
  unfold addColumn. destruct (firstRowWritten this) eqn:Hlatch; [discriminate|].
  match goal with
  | |- context [if Z.land _ _ =? _ then ?r else _] =>
      destruct (if Z.land (id ty) 48 =? 32 then r else _) as [c1|e] eqn:E1;
        [|discriminate]
  end.
  destruct (if hasPrecision ty then _ else _) as [c2|e] eqn:E2; [|discriminate].
  destruct (if hasScale ty then _ else _) as [c3|e] eqn:E3; [|discriminate].
  intros H. injection H as <-.
  exists {| type := ty; fields := c3 |}.
  cbn [columns rowsData firstRowWritten push_column type fields].
  apply resolveStep_returns in E3
    as [-> | (B3 & G3 & f3 & v3 & R3 & _ & ->)];
    apply resolveStep_returns in E2
      as [-> | (B2 & G2 & f2 & v2 & R2 & _ & ->)];
    apply resolveStep_returns in E1
      as [-> | (B1 & G1 & f1 & v1 & R1 & _ & ->)];
    cbn [name value output objName length precision scale
         set_length set_precision set_scale] in *;
    repeat apply conj; try reflexivity; try exact Hlatch;
    try (intros; congruence);
    try (intros [Hno | Hno]; congruence).
  all: intros [Hno | Hno]; try congruence;
    apply Z.eqb_eq in B1; congruence.
Qed.

Lemma addColumn_stores_witness :
  exists c,
    columns (snd (addColumn "a" Samples.Int Samples.noColumnOptions
                    (Samples.fresh "7_4"))) = [] ++ [c]
    /\ type c = Samples.Int.
Proof.
  destruct (addColumn_stores "a" Samples.Int Samples.noColumnOptions
              (Samples.fresh "7_4") _ eq_refl) as (c & Hc & Hty & _).
  by exists c.
Defined.

Lemma flat_map_snoc2 {A B} (f : A -> list B) l a b :
  flat_map f (l ++ [a; b]) = flat_map f l ++ f a ++ f b.
Proof. rewrite flat_map_app. simpl. by rewrite app_nil_r. Qed.

(** X8. Two successful registrations in a row append the two columns in
    call order; the metadata token counts two more columns and carries
    their entries last, in that order. The name index maps the second name
    to the second column, and the first name to the first column unless
    the names are equal, in which case the second column replaces it in
    the index while both stay in the registry. *)
Theorem addColumn_twice (T : TYPE) (this this1 this2 : BulkLoad)
    (nm1 nm2 : string) (ty1 ty2 : DataType) (o1 o2 : ColumnOptions) :
  addColumn nm1 ty1 o1 this = (Return tt, this1) ->
  addColumn nm2 ty2 o2 this1 = (Return tt, this2) ->
  exists c1 c2,
    columns this2 = columns this ++ [c1; c2]
    /\ type c1 = ty1 /\ name (fields c1) = nm1
    /\ type c2 = ty2 /\ name (fields c2) = nm2
    /\ read nm2 (columnsByName this2) = ReadColumn c2
    /\ read nm1 (columnsByName this2)
       = ReadColumn (if String.eqb nm1 nm2 then c2 else c1)
    /\ match getColMetaData T this2 with
       | Return metaData =>
           metaData
           = uint8 (COLMETADATA T)
             ++ uint16LE (Z.of_nat (List.length (columns this)) + 2)
             ++ flat_map (columnMetaData (options this)) (columns this)
             ++ columnMetaData (options this) c1
             ++ columnMetaData (options this) c2
       | Throw e =>
           exists c, In c (columns this2)
                     /\ typeInfoThrown (options this2) c = Some e
       end
    /\ ((forall c, In c (columns this2) ->
                   typeInfoThrown (options this2) c = None) ->
        exists metaData, getColMetaData T this2 = Return metaData).
Proof.
  intros H1 H2.
  destruct (addColumn_pushes _ _ _ _ _ H1) as (f1 & -> & N1 & _).
  destruct (addColumn_pushes _ _ _ _ _ H2) as (f2 & -> & N2 & _).
  exists {| type := ty1; fields := f1 |}, {| type := ty2; fields := f2 |}.
  cbn [columns columnsByName push_column type fields].
  repeat apply conj; auto.
  - by rewrite <- app_assoc.
  - apply read_assign.
  - destruct (String.eqb_spec nm1 nm2) as [->|Hne].
    + apply read_assign.
    + apply read_assign_other; [exact Hne | apply read_assign].
  - rewrite getColMetaData_outcome.
    destruct (firstTypeInfoThrown _ _) eqn:Hthrown;
      [by apply firstTypeInfoThrown_Some|].
    unfold metaDataBytes. cbn [columns options push_column].
    rewrite <- app_assoc. cbn [app]. rewrite flat_map_snoc2.
    rewrite !List.length_app. cbn [List.length].
    replace (Z.of_nat (List.length (columns this) + 2))
      with (Z.of_nat (List.length (columns this)) + 2) by lia.
    by rewrite <- ?app_assoc.
  - intros Hreturns. eexists. by apply getColMetaData_returns.
Qed.

Lemma addColumn_twice_witness :
  exists c1 c2,
    columns (Samples.twoColumns "7_4") = [] ++ [c1; c2]
    /\ name (fields c1) = "a" /\ name (fields c2) = "b".
Proof.
  destruct (addColumn_twice Samples.TOKEN_TYPE (Samples.fresh "7_4") _ _
              "a" "b" Samples.Int Samples.Int
              Samples.noColumnOptions Samples.noColumnOptions
              eq_refl eq_refl)
    as (c1 & c2 & Hc & _ & N1 & _ & N2 & _).
  by exists c1, c2.
Defined.

(** ** Rows *)

(** X9. When no descriptor throws on its value, [addRow] returns and the
    row buffer grows by exactly one row: the row marker, then the bytes of
    each column's descriptor for the value read for that column, in
    registry order. With an empty registry the row is the marker alone.
    The value read is [row[i]] for a positional row and [row[objName]] for
    a row given by name: the row's own property, else what
    [Object.prototype] gives under that name. *)
Theorem addRow_appends_row (T : TYPE) (this : BulkLoad) (input : list JsValue) :
  (forall i c, columns this !! i = Some c ->
               thrown (options this) c (valueFor input i c) = None) ->
  fst (addRow T input this) = Return tt
  /\ contents (rowsData (snd (addRow T input this)))
     = contents (rowsData this) ++ uint8 (ROW T)
       ++ concat (imap (fun i c => encoded (options this) c (valueFor input i c))
                    (columns this))
  /\ (columns this = [] ->
      contents (rowsData (snd (addRow T input this)))
      = contents (rowsData this) ++ uint8 (ROW T))
  /\ (forall i c,
        valueFor input i c
        = match input with
          | [JsObject props] =>
              match ownProperty (objName (fields c)) props with
              | Some v => v
              | None => inherited (objName (fields c))
              end
          | [JsArray elems] => nth i elems JsUndefined
          | _ => nth i input JsUndefined
          end).
Proof.
  intros H. rewrite addRow_valueFor, writeRow_unfold. cbv zeta.
  cbn [fst snd rowsData set_rowsData].
  destruct (writeColumns_all_return (valueFor input) (options this) 0
              (columns this) (writeUInt8 (ROW T) (rowsData this)) H)
    as [Hr Hc].
  split; [exact Hr|].
  assert (Hrow : contents (snd (writeColumns (valueFor input) (options this) 0
                                  (columns this)
                                  (writeUInt8 (ROW T) (rowsData this))))
                 = contents (rowsData this) ++ uint8 (ROW T)
                   ++ concat (imap (fun i c =>
                                      encoded (options this) c
                                        (valueFor input i c))
                                (columns this))).
  { rewrite Hc. unfold writeUInt8. by rewrite contents_write, <- app_assoc. }
  split; [exact Hrow|]. split; [|reflexivity].
  intros Hnil. rewrite Hrow, Hnil. reflexivity.
Qed.

Lemma addRow_appends_row_witness :
  contents (rowsData (snd (addRow Samples.TOKEN_TYPE [JsNumber 2; JsNumber 3]
                             (Samples.twoColumns "7_4"))))
  = [] ++ [0xD1] ++ [4; 2; 0; 0; 0; 4; 3; 0; 0; 0].
Proof.
  refine (proj1 (proj2 (addRow_appends_row Samples.TOKEN_TYPE
                          (Samples.twoColumns "7_4")
                          [JsNumber 2; JsNumber 3] _))).
  intros [|[|i]] c Hc; try discriminate; by injection Hc as <-.
Defined.

(** X10. When the descriptor of the column at index [k] is the first to
    throw, [addRow] throws that exception; the row buffer then holds the
    row marker, the bytes of the columns before [k] and the bytes the
    throwing descriptor wrote, and no later column was encoded. The value
    a descriptor is handed is [row[i]] for a positional row and
    [row[objName]] for a row given by name: the row's own property, else
    what [Object.prototype] gives under that name. *)
Theorem addRow_first_throw (T : TYPE) (this : BulkLoad) (input : list JsValue)
    (k : nat) (ck : Column) (e : Exception) :
  columns this !! k = Some ck ->
  thrown (options this) ck (valueFor input k ck) = Some e ->
  (forall j c, (j < k)%nat -> columns this !! j = Some c ->
               thrown (options this) c (valueFor input j c) = None) ->
  fst (addRow T input this) = Throw e
  /\ contents (rowsData (snd (addRow T input this)))
     = contents (rowsData this) ++ uint8 (ROW T)
       ++ concat (imap (fun i c => encoded (options this) c (valueFor input i c))
                    (take (S k) (columns this)))
  /\ (forall i c,
        valueFor input i c
        = match input with
          | [JsObject props] =>
              match ownProperty (objName (fields c)) props with
              | Some v => v
              | None => inherited (objName (fields c))
              end
          | [JsArray elems] => nth i elems JsUndefined
          | _ => nth i input JsUndefined
          end).
Proof.
  intros Hk He Hbefore. rewrite addRow_valueFor, writeRow_unfold. cbv zeta.
  cbn [fst snd rowsData set_rowsData].
  destruct (writeColumns_first_throw (valueFor input) (options this) 0
              (columns this) (writeUInt8 (ROW T) (rowsData this)) k ck e
              Hk He Hbefore) as [Hr Hc].
  split; [exact Hr|]. split; [|reflexivity].
  rewrite Hc. unfold writeUInt8. by rewrite contents_write, <- app_assoc.
Qed.

Lemma addRow_first_throw_witness :
  fst (addRow Samples.TOKEN_TYPE [JsNumber 1; JsString "x"]
         (Samples.twoColumns "7_4"))
  = Throw (EncodingError "Invalid number.").
Proof.
  refine (proj1 (addRow_first_throw Samples.TOKEN_TYPE
                   (Samples.twoColumns "7_4") [JsNumber 1; JsString "x"]
                   1%nat _ (EncodingError "Invalid number.")
                   eq_refl eq_refl _)).
  intros [|j] c Hj Hc; [by injection Hc as <- | lia].
Defined.

Lemma writeColumns_agree f g opts i cols buf :
  (forall k c, cols !! k = Some c -> f (i + k)%nat c = g (i + k)%nat c) ->
  writeColumns f opts i cols buf = writeColumns g opts i cols buf.
Proof.
  revert i buf. induction cols as [|c cols IH]; intros i buf H.
  - reflexivity.
  - cbn [writeColumns]. pose proof (H 0%nat c eq_refl) as H0.
    rewrite Nat.add_0_r in H0. rewrite H0.
    destruct (writeParameterData _ _ _) as [bytes [e|]]; [reflexivity|].
    apply IH. intros k c' Hk. rewrite Nat.add_succ_l, <- Nat.add_succ_r.
    by apply (H (S k)).
Qed.

(** X11. [addRow] reads, for each column, only the value at the column's
    position (or under its [objName]): two argument lists that give every
    registered column the same value have the same outcome and leave the
    same instance. So values beyond the last column are ignored, a row
    that is too short reads as [undefined] from its end on, and properties
    no column names are ignored. Under an [objName] the row has no own
    property for, the value is what [Object.prototype] gives: a function
    for [toString] and the like, [undefined] for most names. *)
Theorem addRow_reads_registered_only (T : TYPE) (this : BulkLoad)
    (input input' : list JsValue) :
  (forall i c, columns this !! i = Some c ->
               valueFor input i c = valueFor input' i c) ->
  addRow T input this = addRow T input' this
  /\ (forall i c,
        valueFor input i c
        = match input with
          | [JsObject props] =>
              match ownProperty (objName (fields c)) props with
              | Some v => v
              | None => inherited (objName (fields c))
              end
          | [JsArray elems] => nth i elems JsUndefined
          | _ => nth i input JsUndefined
          end)
  /\ (forall i c, valueFor [JsObject []] i c = inherited (objName (fields c)))
  /\ inherited "toString" = JsFunction "toString"
  /\ inherited "a" = JsUndefined.
Proof.
  intros H. repeat apply conj; try reflexivity.
  rewrite !addRow_valueFor, !writeRow_unfold. cbv zeta.
  by rewrite (writeColumns_agree (valueFor input) (valueFor input')
                (options this) 0 (columns this) _ H).
Qed.

Lemma addRow_reads_registered_only_witness :
  addRow Samples.TOKEN_TYPE [JsNumber 2; JsNumber 3; JsString "extra"]
    (Samples.twoColumns "7_4")
  = addRow Samples.TOKEN_TYPE [JsArray [JsNumber 2; JsNumber 3]]
      (Samples.twoColumns "7_4").
Proof.
  refine (proj1 (addRow_reads_registered_only Samples.TOKEN_TYPE
                   (Samples.twoColumns "7_4") _ _ _)).
  intros [|[|i]] c Hc; try discriminate; reflexivity.
Defined.

(** ** The payload and the calls around it *)

Lemma sameBytes_refl a : sameBytes a a.
Proof. by repeat split. Qed.

Lemma writeColumns_sameBytes valueOf opts i cols b1 b2 :
  contents b1 = contents b2 ->
  fst (writeColumns valueOf opts i cols b1)
  = fst (writeColumns valueOf opts i cols b2)
  /\ contents (snd (writeColumns valueOf opts i cols b1))
     = contents (snd (writeColumns valueOf opts i cols b2)).
Proof.
  revert i b1 b2. induction cols as [|c cols IH]; intros i b1 b2 H.
  - by split.
  - cbn [writeColumns].
    destruct (writeParameterData _ _ _) as [bytes [e|]].
    + cbn [fst snd]. by rewrite !contents_write, H.
    + apply IH. by rewrite !contents_write, H.
Qed.

Lemma addColumn_sameBytes nm ty o a b :
  sameBytes a b ->
  fst (addColumn nm ty o a) = fst (addColumn nm ty o b)
  /\ sameBytes (snd (addColumn nm ty o a)) (snd (addColumn nm ty o b)).
Proof.
  intros H. pose proof H as (He & Hca & Hti & Hta & Ho & Hc & Hn & Hl & Hb & Hr).
  unfold addColumn. rewrite Hl. destruct (firstRowWritten b) eqn:Hlb; [by split|].
  repeat match goal with
    | |- context [match ?x with Return _ => _ | Throw _ => _ end] =>
        destruct x
    end; cbn [fst snd]; (split; [reflexivity|]); try exact H.
  unfold sameBytes, push_column; simpl. rewrite Hc, Hn.
  repeat split; congruence.
Qed.

Lemma addRow_sameBytes T input a b :
  sameBytes a b ->
  fst (addRow T input a) = fst (addRow T input b)
  /\ sameBytes (snd (addRow T input a)) (snd (addRow T input b)).
Proof.
  intros (He & Hca & Hti & Hta & Ho & Hc & Hn & Hl & Hb & Hr).
  rewrite !addRow_valueFor, !writeRow_unfold. cbv zeta. cbn [fst snd].
  rewrite Ho, Hc.
  destruct (writeColumns_sameBytes (valueFor input) (options b) 0 (columns b)
              (writeUInt8 (ROW T) (rowsData a))
              (writeUInt8 (ROW T) (rowsData b))) as [Hf Hs].
  { unfold writeUInt8. by rewrite !contents_write, Hr. }
  split; [exact Hf|]. unfold sameBytes; simpl. by repeat split.
Qed.

Lemma getPayload_sameBytes T a b :
  sameBytes a b ->
  fst (getPayload T a) = fst (getPayload T b)
  /\ sameBytes (snd (getPayload T a)) (snd (getPayload T b)).
Proof.
  intros H. pose proof H as (He & Hca & Hti & Hta & Ho & Hc & Hn & Hl & Hb & Hr).
  rewrite !getPayload_eq, (getColMetaData_ext T a b Hc Ho).
  destruct (getColMetaData T b) as [metaData|e]; cbv zeta; cbn [fst snd].
  - rewrite Hr, Ho. split; [reflexivity|]. unfold sameBytes; simpl.
    rewrite !contents_newBuffer. by repeat split.
  - by split.
Qed.

Lemma after_sameBytes T c a b :
  sameBytes a b -> sameBytes (after T c a) (after T c b).
Proof.
  intros H. destruct c; cbn [after]; try exact H.
  - by apply addColumn_sameBytes.
  - by apply addRow_sameBytes.
  - by apply getPayload_sameBytes.
  - destruct H as (He & Hca & Hti & Hta & Ho & Hc & Hn & Hl & Hb & Hr).
    unfold sameBytes; simpl. by repeat split.
Qed.

Lemma afterAll_sameBytes T calls a b :
  sameBytes a b -> sameBytes (afterAll T calls a) (afterAll T calls b).
Proof.
  revert a b. induction calls as [|c calls IH]; intros a b H; simpl; auto.
  by apply IH, after_sameBytes.
Qed.

(** X12. [getPayload] does not disturb the instance: a [getPayload] call
    put anywhere into a sequence of calls changes neither the payload
    built at the end nor any field of the final instance; only the way
    the row buffer is cut into chunks may differ. *)
Theorem getPayload_transparent (T : TYPE) (before later : list Call)
    (this : BulkLoad) :
  let with_call := afterAll T (before ++ CallGetPayload :: later) this in
  let without := afterAll T (before ++ later) this in
  fst (getPayload T with_call) = fst (getPayload T without)
  /\ sameBytes with_call without.
Proof.
  intros with_call without. subst with_call without.
  rewrite !afterAll_app. cbn [afterAll fold_left].
  fold (afterAll T later (after T CallGetPayload (afterAll T before this))).
  fold (afterAll T later (afterAll T before this)).
  assert (H : sameBytes
                (afterAll T later
                   (after T CallGetPayload (afterAll T before this)))
                (afterAll T later (afterAll T before this))).
  { apply afterAll_sameBytes. cbn [after].
    destruct (getPayload_state T (afterAll T before this))
      as (buf & -> & Hbuf).
    unfold sameBytes; simpl. by repeat split. }
  split; [|exact H]. by apply getPayload_sameBytes.
Qed.

(** ** Command text *)

Lemma append_assoc (a b c : string) :
  String.append (String.append a b) c = String.append a (String.append b c).
Proof.
  induction a as [|x a IH]; [reflexivity|].
  change (String x (String.append (String.append a b) c)
          = String x (String.append a (String.append b c))).
  by rewrite IH.
Qed.

Lemma append_nil_r (a : string) : String.append a "" = a.
Proof.
  induction a as [|x a IH]; [reflexivity|].
  change (String x (String.append a "") = String x a). by rewrite IH.
Qed.

Lemma concat_joinTail sep d ds :
  String.concat sep (d :: ds) = String.append d (joinTail sep ds).
Proof.
  revert d. induction ds as [|d' ds IH]; intros d.
  - simpl. by rewrite append_nil_r.
  - change (String.concat sep (d :: d' :: ds))
      with (String.append d (String.append sep (String.concat sep (d' :: ds)))).
    by rewrite IH.
Qed.

Lemma bulkInsertColumns_later i cols sql :
  bulkInsertColumns (S i) cols sql
  = String.append sql (joinTail ", " (map columnDefinition cols)).
Proof.
  revert i sql. induction cols as [|c cols IH]; intros i sql.
  - simpl. by rewrite append_nil_r.
  - cbn [bulkInsertColumns Nat.eqb negb map joinTail fold_right].
    rewrite IH. fold (joinTail ", " (map columnDefinition cols)).
    unfold columnDefinition. by rewrite !append_assoc.
Qed.

(** X13. The bulk-insert command is [insert bulk], the table name, the
    column definitions [[name] declaration] joined by a comma and a space
    inside one pair of parentheses, and the options clause; with no column
    registered the parentheses are empty. *)
Theorem getBulkInsertSql_text (this : BulkLoad) :
  getBulkInsertSql this
  = String.append "insert bulk "
      (String.append (table this)
         (String.append "("
            (String.append
               (String.concat ", " (map columnDefinition (columns this)))
               (String.append ")" (getOptionsSql this)))))
  /\ (columns this = [] ->
      getBulkInsertSql this
      = String.append "insert bulk "
          (String.append (table this)
             (String.append "()" (getOptionsSql this)))).
Proof.
  assert (H : getBulkInsertSql this
              = String.append "insert bulk "
                  (String.append (table this)
                     (String.append "("
                        (String.append
                           (String.concat ", "
                              (map columnDefinition (columns this)))
                           (String.append ")" (getOptionsSql this)))))).
  { unfold getBulkInsertSql. destruct (columns this) as [|c cols].
    - cbn [bulkInsertColumns map String.concat]. by rewrite !append_assoc.
    - cbn [bulkInsertColumns Nat.eqb negb map]. rewrite bulkInsertColumns_later.
      rewrite concat_joinTail. unfold columnDefinition at 2.
      by rewrite !append_assoc. }
  split; [exact H|]. intros Hnil. rewrite H, Hnil. reflexivity.
Qed.

Lemma tableCreationColumns_later i cols sql :
  tableCreationColumns (S i) cols sql
  = String.append sql
      (joinTail (String.append "," newline)
         (map (fun c => String.append (columnDefinition c) (nullability c))
            cols)).
Proof.
  revert i sql. induction cols as [|c cols IH]; intros i sql.
  - simpl. by rewrite append_nil_r.
  - cbn [tableCreationColumns Nat.eqb negb map joinTail fold_right].
    rewrite IH.
    fold (joinTail (String.append "," newline)
            (map (fun c => String.append (columnDefinition c) (nullability c))
               cols)).
    unfold columnDefinition, nullability.
    destruct (nullable (fields c)) as [[]|]; rewrite !append_assoc;
      rewrite ?append_nil_r; reflexivity.
Qed.

(** X14. The table-creation command is [CREATE TABLE], the table name, and
    between [(] newline and newline [)] the column definitions joined by a
    comma and a newline; each definition is [[name] declaration] followed
    by [ NULL] for a nullable column, [ NOT NULL] for one that is not, and
    nothing when the nullability is [undefined]. *)
Theorem getTableCreationSql_text (this : BulkLoad) :
  getTableCreationSql this
  = String.append "CREATE TABLE "
      (String.append (table this)
         (String.append "("
            (String.append newline
               (String.append
                  (String.concat (String.append "," newline)
                     (map (fun c =>
                             String.append (columnDefinition c) (nullability c))
                        (columns this)))
                  (String.append newline ")"))))).
Proof.
  unfold getTableCreationSql. destruct (columns this) as [|c cols].
  - cbn [tableCreationColumns map String.concat]. by rewrite !append_assoc.
  - cbn [tableCreationColumns Nat.eqb negb map].
    rewrite tableCreationColumns_later, concat_joinTail.
    unfold columnDefinition at 2, nullability at 2.
    destruct (nullable (fields c)) as [[]|]; rewrite !append_assoc;
      rewrite ?append_nil_r; reflexivity.
Qed.

(** X15. For each of the sixteen option records the options clause is
    empty exactly when no flag is set; otherwise it is [ WITH (...)] around
    the names of the flags that are set, in declaration order, joined by
    commas. *)
Theorem getOptionsSql_all (this : BulkLoad) :
  let names := map fst (filter (fun p => snd p = true)
                          (namedFlags (bulkOptions this))) in
  getOptionsSql this
  = (if decide (names = []) then ""
     else String.append " WITH ("
            (String.append (String.concat "," names) ")"))
  /\ (getOptionsSql this = "" <->
      checkConstraints (bulkOptions this) = false
      /\ fireTriggers (bulkOptions this) = false
      /\ keepNulls (bulkOptions this) = false
      /\ lockTable (bulkOptions this) = false).
Proof.
  unfold getOptionsSql, namedFlags.
  destruct (checkConstraints _), (fireTriggers _), (keepNulls _), (lockTable _);
    (split; [reflexivity|]); split;
    try discriminate; try (intros (? & ? & ? & ?); discriminate); auto.
Qed.

(** X16. When several option fields are not boolean, the [TypeError] names
    the first of them in the order [checkConstraints], [fireTriggers],
    [keepNulls], [lockTable]. *)
Theorem constructor_first_offender (tbl : string)
    (connectionOptions : ConnectionOptions) (o : Options)
    (field : string) (v : JsValue) :
  find (fun p => suppliedNonBoolean (snd p)) (namedOptions o) = Some (field, v) ->
  constructor tbl connectionOptions o = Throw (TypeError (mustBeBoolean field)).
Proof.
  unfold constructor, namedOptions. cbn [find snd].
  rewrite !isBoolean_default, !negb_involutive.
  destruct (suppliedNonBoolean (o_checkConstraints o)); [by intros [= <- _]|].
  destruct (suppliedNonBoolean (o_fireTriggers o)); [by intros [= <- _]|].
  destruct (suppliedNonBoolean (o_keepNulls o)); [by intros [= <- _]|].
  destruct (suppliedNonBoolean (o_lockTable o)); [by intros [= <- _]|].
  discriminate.
Qed.

Lemma constructor_first_offender_witness :
  constructor "t" (Samples.tds "7_4")
    {| o_checkConstraints := JsBool true; o_fireTriggers := JsNull;
       o_keepNulls := JsNumber 1; o_lockTable := JsUndefined |}
  = Throw (TypeError (mustBeBoolean "fireTriggers")).
Proof.
  exact (constructor_first_offender "t" (Samples.tds "7_4")
           {| o_checkConstraints := JsBool true; o_fireTriggers := JsNull;
              o_keepNulls := JsNumber 1; o_lockTable := JsUndefined |}
           "fireTriggers" JsNull eq_refl).
Defined.

(** ** The metadata token and the payload, as wholes *)

Lemma length_ucs2 s : List.length (ucs2 s) = (2 * String.length s)%nat.
Proof.
  induction s as [|c s IH]; [reflexivity|].
  cbn [ucs2 List.length String.length]. rewrite IH. lia.
Qed.

(** X17. The metadata token is the marker byte, the number of registered
    columns as two bytes, low byte first (for fewer than 65536 columns the
    two bytes read back as that number), and one entry per column in
    registry order. An entry is a zero user type of two bytes before
    version 7_2 and of four bytes from 7_2 on, the two flag bytes, the
    bytes of the descriptor's type information, one byte for the length of
    the name and two bytes per character of the name. The token is
    returned when no descriptor throws from [writeTypeInfo], and whenever
    a token is returned it is this one. *)
Theorem getColMetaData_layout (T : TYPE) (this : BulkLoad) :
  let n := Z.of_nat (List.length (columns this)) in
  let userType :=
    if js_lt (tdsVersion (options this)) "7_2" then [0; 0] else [0; 0; 0; 0] in
  let entry c :=
    userType
    ++ [columnFlags (options this) c mod 256;
        (columnFlags (options this) c / 256) mod 256]
    ++ typeInfo (options this) c
    ++ [Z.of_nat (String.length (name (fields c))) mod 256]
    ++ ucs2 (name (fields c)) in
  ((forall c, In c (columns this) ->
              typeInfoThrown (options this) c = None) ->
   getColMetaData T this
   = Return ([COLMETADATA T mod 256; n mod 256; (n / 256) mod 256]
             ++ flat_map entry (columns this)))
  /\ (forall metaData,
        getColMetaData T this = Return metaData ->
        metaData
        = [COLMETADATA T mod 256; n mod 256; (n / 256) mod 256]
          ++ flat_map entry (columns this))
  /\ (n < 65536 -> n mod 256 + 256 * ((n / 256) mod 256) = n)
  /\ (forall c,
        List.length (entry c)
        = (List.length userType + 3
           + List.length (typeInfo (options this) c)
           + 2 * String.length (name (fields c)))%nat).
Proof.
  intros n userType entry. repeat apply conj.
  - intros Hreturns. by rewrite (getColMetaData_returns T this Hreturns).
  - intros metaData H. by rewrite (getColMetaData_bytes T this metaData H).
  - intros Hn. rewrite (Z.mod_small (n / 256)).
    + pose proof (Z.div_mod n 256). lia.
    + split; [apply Z.div_pos; lia | apply Z.div_lt_upper_bound; lia].
  - intros c. unfold entry. rewrite !List.length_app, length_ucs2.
    cbn [List.length]. lia.
Qed.

(** X18. When no descriptor throws, neither on its value nor from
    [writeTypeInfo], a successful [addRow] puts its row into the payload
    right before the completion token: the payload built afterwards is the
    metadata token, the rows held before, the new row (marker and column
    bytes) and the completion token, and the metadata and completion
    tokens are those of the payload built before. *)
Theorem getPayload_after_addRow (T : TYPE) (this : BulkLoad)
    (input : list JsValue) :
  (forall i c, columns this !! i = Some c ->
               thrown (options this) c (valueFor input i c) = None) ->
  (forall c, In c (columns this) -> typeInfoThrown (options this) c = None) ->
  let row :=
    uint8 (ROW T)
    ++ concat (imap (fun i c => encoded (options this) c (valueFor input i c))
                 (columns this)) in
  let done := contents (doneToken T (options this)) in
  let metaData := metaDataBytes T this in
  exists before after,
    getColMetaData T this = Return metaData
    /\ fst (addRow T input this) = Return tt
    /\ fst (getPayload T this) = Return before
    /\ fst (getPayload T (snd (addRow T input this))) = Return after
    /\ contents before = metaData ++ contents (rowsData this) ++ done
    /\ contents after = metaData ++ contents (rowsData this) ++ row ++ done.
Proof.
  intros H Hinfo row done metaData.
  destruct (writeColumns_all_return (valueFor input) (options this) 0
              (columns this) (writeUInt8 (ROW T) (rowsData this)) H)
    as [Hr Hc].
  pose proof (getColMetaData_returns T this Hinfo) as Hmeta.
  assert (Hmeta' : getColMetaData T (snd (addRow T input this))
                   = Return metaData).
  { subst metaData. rewrite <- Hmeta. apply getColMetaData_ext;
      by destruct (addRow_state T input this) as [buf ->]. }
  rewrite !getPayload_eq, Hmeta, Hmeta'. cbv zeta. cbn [fst].
  eexists _, _. split; [reflexivity|].
  split. { by rewrite addRow_valueFor, writeRow_unfold. }
  split; [reflexivity|]. split; [reflexivity|].
  unfold contents at 1 3. cbn [compositeBuffer buffer app].
  split; [reflexivity|].
  rewrite addRow_valueFor, writeRow_unfold. cbv zeta.
  cbn [snd rowsData set_rowsData options set_firstRowWritten].
  rewrite Hc. unfold writeUInt8. rewrite contents_write.
  subst row done. by rewrite <- !app_assoc.
Qed.

Lemma getPayload_after_addRow_witness :
  exists before after,
    fst (getPayload Samples.TOKEN_TYPE (Samples.twoColumns "7_1"))
    = Return before
    /\ fst (getPayload Samples.TOKEN_TYPE
              (snd (addRow Samples.TOKEN_TYPE [JsNumber 2; JsNumber 3]
                      (Samples.twoColumns "7_1")))) = Return after.
Proof.
  destruct (getPayload_after_addRow Samples.TOKEN_TYPE
              (Samples.twoColumns "7_1") [JsNumber 2; JsNumber 3])
    as (before & after & _ & _ & Hb & Ha & _).
  { intros [|[|i]] c Hc; try discriminate; by injection Hc as <-. }
  { intros c [<- | [<- | []]]; reflexivity. }
  by exists before, after.
Defined.

(** X23. A [writeTypeInfo] exception is not handled: when the descriptor of
    the column at index [k] is the first to throw from [writeTypeInfo],
    [getColMetaData] and [getPayload] throw that exception, and
    [getPayload] leaves the instance, row buffer included, as it was. *)
Theorem getPayload_propagates (T : TYPE) (this : BulkLoad)
    (k : nat) (ck : Column) (e : Exception) :
  columns this !! k = Some ck ->
  typeInfoThrown (options this) ck = Some e ->
  (forall j c, (j < k)%nat -> columns this !! j = Some c ->
               typeInfoThrown (options this) c = None) ->
  getColMetaData T this = Throw e
  /\ getPayload T this = (Throw e, this).
Proof.
  intros Hk He Hbefore.
  assert (H : firstTypeInfoThrown (options this) (columns this) = Some e).
  { revert k Hk Hbefore. generalize (columns this) as cols.
    induction cols as [|c cols IH]; intros k Hk Hbefore; [discriminate|].
    cbn [firstTypeInfoThrown]. destruct k as [|k].
    - injection Hk as ->. by rewrite He.
    - rewrite (Hbefore 0%nat c ltac:(lia) eq_refl).
      apply (IH k Hk). intros j c' Hj Hc'.
      apply (Hbefore (S j)); [lia | exact Hc']. }
  rewrite getPayload_eq, getColMetaData_outcome, H. by split.
Qed.

Lemma getPayload_propagates_witness :
  getPayload Samples.TOKEN_TYPE
    (snd (addColumn "a" unwritable Samples.noColumnOptions
            (Samples.fresh "7_4")))
  = (Throw (EncodingError "no type info"),
     snd (addColumn "a" unwritable Samples.noColumnOptions
            (Samples.fresh "7_4"))).
Proof.
  refine (proj2 (getPayload_propagates Samples.TOKEN_TYPE
                   (snd (addColumn "a" unwritable Samples.noColumnOptions
                           (Samples.fresh "7_4")))
                   0%nat _ (EncodingError "no type info")
                   eq_refl eq_refl _)).
  intros j c Hj. lia.
Defined.

(** * The buffer builder *)

Section BuildBufferProperties.

Import BuildBuffer.

Variable alloc : nat -> list byte.
Variable write :
  Method -> JsValue -> nat -> list byte -> Completion (list byte).

Lemma mod2_even (n : nat) : Nat.eqb (n mod 2) 0 = Nat.even n.
Proof.
  pose proof (PeanoNat.Nat.mod_upper_bound n 2 ltac:(lia)) as Hlt.
  rewrite (PeanoNat.Nat.div_mod_eq n 2) at 2.
  rewrite PeanoNat.Nat.add_comm, PeanoNat.Nat.even_add_mul_2.
  destruct (n mod 2)%nat as [|[|k]]; [reflexivity | reflexivity | lia].
Qed.

(** Induction over an argument list two arguments at a time. *)
Lemma arguments_ind (P : list JsValue -> Prop) :
  P [] -> (forall f, P [f]) ->
  (forall f v rest, P rest -> P (f :: v :: rest)) ->
  forall l, P l.
Proof.
  intros H0 H1 H2 l.
  assert (H : P l /\ forall x, P (x :: l)).
  { induction l as [|y l [IHl IHx]]; split; auto. }
  apply H.
Qed.

(** The two [switch] statements know the same formats and widths. *)
Lemma formatLength_methodOf format :
  formatLength format = option_map snd (methodOf format).
Proof.
  destruct format as [| | | | |s| | |]; try reflexivity.
  unfold formatLength, methodOf, oneOf, isString. cbn [existsb].
  repeat match goal with
    | |- context [String.eqb s ?lit] =>
        destruct (String.eqb_spec s lit) as [->|?]; [reflexivity|]
    end.
  reflexivity.
Qed.

Lemma methodOf_width format m n :
  methodOf format = Some (m, n) -> n = width m.
Proof.
  unfold methodOf.
  repeat match goal with
    | |- context [if ?b then _ else _] =>
        destruct b; [by intros [= <- <-]|]
    end.
  discriminate.
Qed.

Lemma totalLength_find arguments len :
  totalLength arguments len =
    match find unrecognised (pairs arguments) with
    | Some p => inl (FormatNotRecognised (fst p))
    | None => inr (len + list_sum (map widthOf (pairs arguments)))%nat
    end.
Proof.
  revert len. induction arguments as [|f|f v rest IH] using arguments_ind;
    intros len.
  - simpl. f_equal. lia.
  - cbn [totalLength pairs find map list_sum]. unfold unrecognised, widthOf.
    cbn [fst]. destruct (formatLength f); [f_equal; simpl; lia | reflexivity].
  - cbn [totalLength pairs find map list_sum]. unfold unrecognised at 1.
    unfold widthOf at 1. cbn [fst].
    destruct (formatLength f) as [n|]; [|reflexivity].
    rewrite IH. destruct (find _ _); [reflexivity|]. f_equal.
    change (list_sum (n :: map widthOf (pairs rest)))
      with (n + list_sum (map widthOf (pairs rest)))%nat. lia.
Qed.

Lemma writeAll_recognised arguments offset buffer result :
  writeAll write arguments offset buffer = Returns result ->
  Forall (fun p => exists m, methodOf (fst p) = Some (m, width m))
    (pairs arguments).
Proof.
  revert offset buffer.
  induction arguments as [|f|f v rest IH] using arguments_ind;
    intros offset buffer; cbn [writeAll pairs nth].
  - constructor.
  - destruct (methodOf f) as [[m n]|] eqn:Hm; [|discriminate].
    intros _. constructor; [|constructor].
    exists m. cbn [fst]. by rewrite Hm, (methodOf_width _ _ _ Hm).
  - destruct (methodOf f) as [[m n]|] eqn:Hm; [|discriminate].
    destruct (write m v offset buffer) as [buffer'|e]; [|discriminate].
    intros H. constructor; [|by eapply IH].
    exists m. cbn [fst]. by rewrite Hm, (methodOf_width _ _ _ Hm).
Qed.

(** X19. [buildBuffer] checks its arguments before it writes anything,
    whatever the values and the platform are. An odd number of arguments
    gives the pairs error with that number. With an even number, the first
    format that is not one of the ten known ones gives the format error
    for that format. A buffer is returned only for an even number of
    arguments whose formats are all known. *)
Theorem buildBuffer_validates (arguments : list JsValue) :
  (Nat.odd (List.length arguments) = true ->
   buildBuffer alloc write arguments
   = Throws (ExpectedPairs (List.length arguments)))
  /\ (Nat.even (List.length arguments) = true ->
      forall p, find unrecognised (pairs arguments) = Some p ->
                buildBuffer alloc write arguments
                = Throws (FormatNotRecognised (fst p)))
  /\ (forall buffer,
        buildBuffer alloc write arguments = Returns buffer ->
        Nat.even (List.length arguments) = true
        /\ Forall (fun p => exists m, methodOf (fst p) = Some (m, width m))
             (pairs arguments)).
Proof.
  unfold buildBuffer.
  assert (Hmod : Nat.eqb (List.length arguments mod 2) 0
                 = Nat.even (List.length arguments)).
  { apply mod2_even. }
  rewrite Hmod. repeat apply conj.
  - intros Hodd. by rewrite <- Nat.negb_odd, Hodd.
  - intros Heven p Hp. rewrite Heven. cbn [negb].
    by rewrite totalLength_find, Hp.
  - intros buffer. destruct (Nat.even _); cbn [negb]; [|discriminate].
    destruct (totalLength arguments 0) as [f|len]; [discriminate|].
    intros H. split; [reflexivity|]. by eapply writeAll_recognised.
Qed.

End BuildBufferProperties.

Section BuildBufferEncoding.

Import BuildBuffer.

Variable alloc : nat -> list byte.
Variable write :
  Method -> JsValue -> nat -> list byte -> Completion (list byte).

Lemma length_littleEndian n z : List.length (littleEndian n z) = n.
Proof. revert z. induction n as [|n IH]; intros z; simpl; auto. Qed.

Lemma length_stored m z : List.length (stored m z) = width m.
Proof.
  destruct m; unfold stored; rewrite ?length_rev; apply length_littleEndian.
Qed.

Lemma encodable_widthOf p :
  encodable p -> unrecognised p = false
                 /\ widthOf p = List.length (bytesOf p).
Proof.
  intros (m & n & z & Hm & Hv & Hr).
  unfold unrecognised, widthOf, bytesOf.
  rewrite formatLength_methodOf, Hm, Hv. cbn [option_map snd].
  by rewrite length_stored, (methodOf_width _ _ _ Hm).
Qed.

Lemma pairs_app a b :
  Nat.even (List.length a) = true -> pairs (a ++ b) = pairs a ++ pairs b.
Proof.
  induction a as [|f|f v rest IH] using arguments_ind; intros Heven.
  - reflexivity.
  - discriminate.
  - cbn [app pairs nth]. f_equal. by apply IH.
Qed.

(** The second loop on encodable pairs: with [written] bytes behind the
    offset, it fills the rest of the buffer with the bytes of the pairs. *)
Lemma writeAll_encodable arguments written buffer :
  writesIntegers write ->
  Nat.even (List.length arguments) = true ->
  Forall encodable (pairs arguments) ->
  take (List.length written) buffer = written ->
  List.length buffer
  = (List.length written
     + List.length (flat_map bytesOf (pairs arguments)))%nat ->
  writeAll write arguments (List.length written) buffer
  = Returns (written ++ flat_map bytesOf (pairs arguments)).
Proof.
  intros Hwrite. revert written buffer.
  induction arguments as [|f|f v rest IH] using arguments_ind;
    intros written buffer Heven Hpairs Htake Hlen.
  - cbn [writeAll pairs flat_map] in *. rewrite app_nil_r in *.
    rewrite Nat.add_0_r in Hlen. rewrite <- Hlen in Htake.
    by rewrite firstn_all in Htake; subst.
  - discriminate.
  - cbn [pairs nth] in Hpairs, Hlen |- *.
    apply Forall_cons_1 in Hpairs as [Hp Hrest].
    pose proof Hp as (m & n & z & Hm & Hv & Hr). cbn [fst snd] in Hm, Hv.
    subst v. pose proof (methodOf_width _ _ _ Hm) as ->.
    cbn [flat_map] in Hlen |- *. rewrite List.length_app in Hlen.
    assert (Hb : bytesOf (f, JsNumber z) = stored m z)
      by (unfold bytesOf; cbn [fst snd]; by rewrite Hm).
    rewrite Hb in Hlen |- *. rewrite length_stored in Hlen.
    cbn [writeAll nth]. rewrite Hm, Hwrite, Htake; [|exact Hr|lia].
    specialize (IH (written ++ stored m z)
                  (written ++ stored m z
                   ++ drop (List.length written + width m) buffer)).
    rewrite List.length_app, length_stored in IH.
    rewrite IH; [by rewrite <- app_assoc | exact Heven | exact Hrest | |].
    + rewrite app_assoc.
      replace (List.length written + width m)%nat
        with (List.length (written ++ stored m z))
        by (by rewrite List.length_app, length_stored).
      by rewrite take_app_length.
    + rewrite !List.length_app, length_stored, length_drop. lia.
Qed.

Lemma buildBuffer_encodable arguments :
  (forall n, List.length (alloc n) = n) ->
  writesIntegers write ->
  Nat.even (List.length arguments) = true ->
  Forall encodable (pairs arguments) ->
  buildBuffer alloc write arguments
  = Returns (flat_map bytesOf (pairs arguments)).
Proof.
  intros Halloc Hwrite Heven Hpairs. unfold buildBuffer.
  rewrite mod2_even, Heven. cbn [negb]. rewrite totalLength_find.
  assert (Hfind : find unrecognised (pairs arguments) = None
                  /\ list_sum (map widthOf (pairs arguments))
                     = List.length (flat_map bytesOf (pairs arguments))).
  { clear Heven. induction Hpairs as [|p ps Hp _ [IHf IHs]]; [by split|].
    destruct (encodable_widthOf p Hp) as [Hu Hw].
    cbn [find map flat_map]. rewrite Hu, List.length_app, <- IHs, <- Hw.
    by split. }
  destruct Hfind as [-> Hsum]. cbn [Nat.add].
  apply (writeAll_encodable arguments [] (alloc _) Hwrite Heven Hpairs);
    [reflexivity|].
  by rewrite Halloc, Hsum.
Qed.

Lemma writeAll_length arguments offset buffer result :
  (forall m v o b b', write m v o b = Return b' ->
                      List.length b' = List.length b) ->
  writeAll write arguments offset buffer = Returns result ->
  List.length result = List.length buffer.
Proof.
  intros Hkeep. revert offset buffer.
  induction arguments as [|f|f v rest IH] using arguments_ind;
    intros offset buffer; cbn [writeAll nth].
  - by intros [= <-].
  - destruct (methodOf f) as [[m n]|]; [|discriminate].
    destruct (write m JsUndefined offset buffer) as [b'|e] eqn:W;
      [|discriminate].
    intros [= <-]. by eapply Hkeep.
  - destruct (methodOf f) as [[m n]|]; [|discriminate].
    destruct (write m v offset buffer) as [b'|e] eqn:W; [|discriminate].
    intros H. rewrite (IH _ _ H). by eapply Hkeep.
Qed.

(** X20. On a platform whose allocation has the length asked for and
    whose writes keep the length of the buffer, a buffer [buildBuffer]
    returns is exactly as long as the widths of its formats add up to: one
    byte for ['8'] and ['U8'], two for the four 16-bit formats, four for
    the four 32-bit formats. *)
Theorem buildBuffer_length (arguments : list JsValue) (buffer : list byte) :
  (forall n, List.length (alloc n) = n) ->
  (forall m v o b b', write m v o b = Return b' ->
                      List.length b' = List.length b) ->
  buildBuffer alloc write arguments = Returns buffer ->
  List.length buffer = list_sum (map widthOf (pairs arguments)).
Proof.
  intros Halloc Hkeep. unfold buildBuffer.
  destruct (negb _); [discriminate|]. rewrite totalLength_find.
  destruct (find _ _); [discriminate|]. cbn [Nat.add].
  intros H. by rewrite (writeAll_length _ _ _ _ Hkeep H), Halloc.
Qed.

(** X21. On a platform that allocates the length asked for and stores an
    integer in range at the offset given, [buildBuffer] applied to pairs of
    a known format and an integer in the format's range returns the bytes
    of the values one after the other: big-endian for ['16'], ['U16'],
    ['32'], ['U32'], little-endian for the [L] formats, two's complement
    for negative values. Every byte of the buffer is written, so the
    result does not depend on what the allocation held. *)
Theorem buildBuffer_bytes (arguments : list JsValue)
    (alloc' : nat -> list byte) :
  (forall n, List.length (alloc n) = n) ->
  (forall n, List.length (alloc' n) = n) ->
  writesIntegers write ->
  Nat.even (List.length arguments) = true ->
  Forall encodable (pairs arguments) ->
  buildBuffer alloc write arguments
  = Returns (flat_map bytesOf (pairs arguments))
  /\ buildBuffer alloc' write arguments = buildBuffer alloc write arguments.
Proof.
  intros Halloc Halloc' Hwrite Heven Hpairs.
  rewrite (buildBuffer_encodable arguments Halloc Hwrite Heven Hpairs).
  split; [reflexivity|].
  unfold buildBuffer. rewrite mod2_even, Heven. cbn [negb].
  rewrite totalLength_find.
  destruct (find unrecognised (pairs arguments)) eqn:Hfind.
  - exfalso. apply find_some in Hfind as [Hin Hu].
    rewrite List.Forall_forall in Hpairs.
    destruct (encodable_widthOf _ (Hpairs _ Hin)) as [Hno _]. congruence.
  - cbn [Nat.add].
    apply (writeAll_encodable arguments [] (alloc' _) Hwrite Heven Hpairs);
      [reflexivity|].
    rewrite Halloc'. clear Hfind Heven.
    induction Hpairs as [|p ps Hp _ IH]; [reflexivity|].
    destruct (encodable_widthOf p Hp) as [_ Hw].
    cbn [map flat_map]. rewrite List.length_app, <- Hw.
    change (list_sum (widthOf p :: map widthOf ps))
      with (widthOf p + list_sum (map widthOf ps))%nat.
    simpl in IH |- *. lia.
Qed.

(** X22. Under the same conditions the builder composes: the buffer for
    one encodable argument list followed by another is the buffer of the
    first followed by the buffer of the second. *)
Theorem buildBuffer_app (a b : list JsValue) :
  (forall n, List.length (alloc n) = n) ->
  writesIntegers write ->
  Nat.even (List.length a) = true -> Nat.even (List.length b) = true ->
  Forall encodable (pairs a) -> Forall encodable (pairs b) ->
  exists bytes_a bytes_b,
    buildBuffer alloc write a = Returns bytes_a
    /\ buildBuffer alloc write b = Returns bytes_b
    /\ buildBuffer alloc write (a ++ b) = Returns (bytes_a ++ bytes_b).
Proof.
  intros Halloc Hwrite Ha Hb Hpa Hpb.
  exists (flat_map bytesOf (pairs a)), (flat_map bytesOf (pairs b)).
  split; [by apply buildBuffer_encodable|].
  split; [by apply buildBuffer_encodable|].
  rewrite buildBuffer_encodable; auto.
  - by rewrite pairs_app, flat_map_app.
  - rewrite List.length_app, Nat.even_add, Ha, Hb. reflexivity.
  - rewrite pairs_app by exact Ha. by apply Forall_app.
Qed.

End BuildBufferEncoding.

(** ** The sample platform, and the builder at concrete arguments *)

Lemma sampleAlloc_length n : List.length (BuildBuffer.sampleAlloc n) = n.
Proof. apply repeat_length. Qed.

Lemma sampleWrite_keeps m v o b b' :
  BuildBuffer.sampleWrite m v o b = Return b' ->
  List.length b' = List.length b.
Proof.
  unfold BuildBuffer.sampleWrite. destruct v; try discriminate.
  destruct (BuildBuffer.inRange m z); [|discriminate]. cbn [andb].
  destruct (Nat.leb_spec (o + BuildBuffer.width m) (List.length b));
    [|discriminate].
  intros [= <-].
  rewrite !List.length_app, length_take, length_drop,
    (length_stored m z). lia.
Qed.

Lemma sampleWrite_writesIntegers :
  BuildBuffer.writesIntegers BuildBuffer.sampleWrite.
Proof.
  intros m z offset buffer Hr Hfit. unfold BuildBuffer.sampleWrite.
  rewrite Hr. cbn [andb].
  by destruct (Nat.leb_spec (offset + BuildBuffer.width m)
                 (List.length buffer)); [|lia].
Qed.

Lemma buildBuffer_length_witness :
  List.length [1; 2; 1]
  = list_sum (map BuildBuffer.widthOf
                (BuildBuffer.pairs
                   [JsString "U8"; JsNumber 1; JsString "16L"; JsNumber 258])).
Proof.
  exact (buildBuffer_length BuildBuffer.sampleAlloc BuildBuffer.sampleWrite
           [JsString "U8"; JsNumber 1; JsString "16L"; JsNumber 258]
           [1; 2; 1] sampleAlloc_length sampleWrite_keeps eq_refl).
Defined.

Lemma buildBuffer_bytes_witness :
  BuildBuffer.buildBuffer BuildBuffer.sampleAlloc BuildBuffer.sampleWrite
    [JsString "16"; JsNumber (-2); JsString "U32L"; JsNumber 0x01020304]
  = BuildBuffer.Returns [0xFF; 0xFE; 4; 3; 2; 1].
Proof.
  refine (proj1 (buildBuffer_bytes BuildBuffer.sampleAlloc
                   BuildBuffer.sampleWrite
                   [JsString "16"; JsNumber (-2);
                    JsString "U32L"; JsNumber 0x01020304]
                   (fun n => repeat 0 n)
                   sampleAlloc_length (fun n => repeat_length 0 n)
                   sampleWrite_writesIntegers eq_refl _)).
  repeat constructor.
  - by exists BuildBuffer.writeInt16BE, 2%nat, (-2).
  - by exists BuildBuffer.writeUInt32LE, 4%nat, 0x01020304.
Defined.

Lemma buildBuffer_app_witness :
  exists bytes_a bytes_b,
    BuildBuffer.buildBuffer BuildBuffer.sampleAlloc BuildBuffer.sampleWrite
      [JsString "8"; JsNumber (-1)] = BuildBuffer.Returns bytes_a
    /\ BuildBuffer.buildBuffer BuildBuffer.sampleAlloc BuildBuffer.sampleWrite
         [JsString "U16"; JsNumber 258] = BuildBuffer.Returns bytes_b
    /\ BuildBuffer.buildBuffer BuildBuffer.sampleAlloc BuildBuffer.sampleWrite
         ([JsString "8"; JsNumber (-1)] ++ [JsString "U16"; JsNumber 258])
       = BuildBuffer.Returns (bytes_a ++ bytes_b).
Proof.
  apply (buildBuffer_app BuildBuffer.sampleAlloc BuildBuffer.sampleWrite
           [JsString "8"; JsNumber (-1)] [JsString "U16"; JsNumber 258]
           sampleAlloc_length sampleWrite_writesIntegers eq_refl eq_refl).
  - repeat constructor. by exists BuildBuffer.writeInt8, 1%nat, (-1).
  - repeat constructor. by exists BuildBuffer.writeUInt16BE, 2%nat, 258.
Defined.

(** The two errors of the builder, and a value out of range, on the sample
    platform. *)
Example buildBuffer_errors :
  BuildBuffer.buildBuffer BuildBuffer.sampleAlloc BuildBuffer.sampleWrite
    [JsString "U8"; JsNumber 1; JsString "16"]
  = BuildBuffer.Throws (BuildBuffer.ExpectedPairs 3)
  /\ BuildBuffer.buildBuffer BuildBuffer.sampleAlloc BuildBuffer.sampleWrite
       [JsString "U8"; JsNumber 300; JsString "64"; JsNumber 1]
     = BuildBuffer.Throws (BuildBuffer.FormatNotRecognised (JsString "64"))
  /\ BuildBuffer.buildBuffer BuildBuffer.sampleAlloc BuildBuffer.sampleWrite
       [JsString "U8"; JsNumber 300]
     = BuildBuffer.Throws
         (BuildBuffer.WriteFailed (Error "value is out of bounds"))
  /\ BuildBuffer.buildBuffer BuildBuffer.sampleAlloc BuildBuffer.sampleWrite []
     = BuildBuffer.Returns [].
Proof. vm_compute. auto. Qed.
